(** * time-tracker-simple: the day view, the entry store and the dashboard

    A shallow embedding of [app.py] and [init_db.py].  The relational store
    the handlers talk to is modelled by the table [time_log] the schema
    declares, the SQL statements by functions on that table, and the two
    Flask handlers by functions on a [World] that holds the store, the open
    connections and the console. *)

From Stdlib Require Import ZArith String Ascii List Permutation Sorted Lia.
From Stdlib Require Import DecimalString QArith Qround.
From stdpp Require Import gmap strings list fin_maps sorting.

Local Open Scope string_scope.
Local Open Scope list_scope.
Local Open Scope Z_scope.

(** ** Text formatting

    Python's [str(n)] and the format specification [0wd] of the f-strings
    and of [isoformat]. *)

Definition str_int (n : Z) : string := NilZero.string_of_int (Z.to_int n).

Fixpoint zeros (k : nat) : string :=
  match k with
  | O => EmptyString
  | S k' => String "0" (zeros k')
  end.

(** [zfill w s]: [s] padded on the left with zeros up to width [w]. *)
Definition zfill (w : nat) (s : string) : string :=
  zeros (w - String.length s) +:+ s.

(** [f"{n:0wd}"]: the sign comes first, the zeros fill what is left. *)
Definition fmt_0d (w : nat) (n : Z) : string :=
  if n <? 0 then "-" +:+ zfill (w - 1) (str_int (- n)) else zfill w (str_int n).

(** ** Calendar dates: [datetime.date]

    A date is a year, a month and a day; [date_ok] is the range check the
    constructor of [datetime.date] performs. *)

Record Date := mkDate { year : Z; month : Z; day : Z }.

Global Instance Date_eq_dec : EqDecision Date.
Proof. solve_decision. Defined.

Definition is_leap (y : Z) : bool :=
  (y mod 4 =? 0) && (negb (y mod 100 =? 0) || (y mod 400 =? 0)).

Definition days_in_month (y m : Z) : Z :=
  if m =? 2 then (if is_leap y then 29 else 28)
  else if (m =? 4) || (m =? 6) || (m =? 9) || (m =? 11) then 30
  else 31.

Definition MINYEAR : Z := 1.
Definition MAXYEAR : Z := 9999.

Definition date_ok (d : Date) : bool :=
  (MINYEAR <=? year d) && (year d <=? MAXYEAR)
  && (1 <=? month d) && (month d <=? 12)
  && (1 <=? day d) && (day d <=? days_in_month (year d) (month d)).

(** [date.isoformat()]: ["%04d-%02d-%02d"]. *)
Definition isoformat (d : Date) : string :=
  fmt_0d 4 (year d) +:+ "-" +:+ fmt_0d 2 (month d) +:+ "-" +:+ fmt_0d 2 (day d).

(** *** Ordinals: [date.toordinal], [date.fromordinal] and [timedelta] *)

Definition days_before_year (y : Z) : Z :=
  let y1 := y - 1 in y1 * 365 + y1 / 4 - y1 / 100 + y1 / 400.

Fixpoint days_before_month_aux (y : Z) (m : nat) : Z :=
  match m with
  | O => 0
  | S m' => days_before_month_aux y m' + days_in_month y (Z.of_nat m)
  end.

(** Days of year [y] before the first of month [m]. *)
Definition days_before_month (y m : Z) : Z :=
  days_before_month_aux y (Z.to_nat (m - 1)).

Definition toordinal (d : Date) : Z :=
  days_before_year (year d) + days_before_month (year d) (month d) + day d.

Definition DI400Y : Z := days_before_year 401.
Definition DI100Y : Z := days_before_year 101.
Definition DI4Y : Z := days_before_year 5.
Definition MAXORDINAL : Z := 3652059.

(** The month of the [n]-th day (from 0) of year [y], searched upwards from
    January, with the days left inside it. *)
Fixpoint month_of_yday (y : Z) (fuel : nat) (m n : Z) : Z * Z :=
  match fuel with
  | O => (m, n)
  | S fuel' =>
      if n <? days_in_month y m then (m, n)
      else month_of_yday y fuel' (m + 1) (n - days_in_month y m)
  end.

(** [_ord2ymd]: 400-, 100-, 4- and 1-year cycles, then the month. *)
Definition fromordinal (n : Z) : Date :=
  let n := n - 1 in
  let n400 := n / DI400Y in
  let n := n mod DI400Y in
  let n100 := n / DI100Y in
  let n := n mod DI100Y in
  let n4 := n / DI4Y in
  let n := n mod DI4Y in
  let n1 := n / 365 in
  let n := n mod 365 in
  let y := n400 * 400 + 1 + n100 * 100 + n4 * 4 + n1 in
  if (n1 =? 4) || (n100 =? 4) then mkDate (y - 1) 12 31
  else
    let '(m, r) := month_of_yday y 11 1 n in
    mkDate y m (r + 1).

(** [d + timedelta(days=k)]: [None] stands for the [OverflowError] raised
    when the result leaves the supported range. *)
Definition date_add_days (d : Date) (k : Z) : option Date :=
  let o := toordinal d + k in
  if (0 <? o) && (o <=? MAXORDINAL) then Some (fromordinal o) else None.

(** [date.weekday()]: Monday is 0. *)
Definition weekday (d : Date) : Z := (toordinal d + 6) mod 7.

(** *** Parsing: [date.fromisoformat]

    What [date.fromisoformat] takes depends on the interpreter: the form
    [YYYY-MM-DD] from Python 3.7 on, and from 3.11 on also the basic form
    and the week forms of ISO 8601.  The source fixes no version, so the
    parser is a parameter, [Python], with what every version guarantees:
    it reads back what [isoformat] writes, and it yields valid dates only.
    [None] stands for [ValueError].

    [fromisoformat_ymd] is the parser of the versions before 3.11: exactly
    [YYYY-MM-DD], ten characters, decimal digits and two hyphens, then the
    constructor's range check. *)

Definition digit_of_ascii (c : ascii) : option Z :=
  let n := Z.of_N (N_of_ascii c) in
  if (48 <=? n) && (n <=? 57) then Some (n - 48) else None.

(** The value of a string made of decimal digits only. *)
Fixpoint parse_digits_from (acc : Z) (s : string) : option Z :=
  match s with
  | EmptyString => Some acc
  | String c s' =>
      match digit_of_ascii c with
      | Some d => parse_digits_from (acc * 10 + d) s'
      | None => None
      end
  end.

Definition parse_digits (s : string) : option Z :=
  match s with
  | EmptyString => None
  | _ => parse_digits_from 0 s
  end.

Definition fromisoformat_ymd (s : string) : option Date :=
  if negb (Nat.eqb (String.length s) 10) then None
  else
    match parse_digits (substring 0 4 s),
          parse_digits (substring 5 2 s),
          parse_digits (substring 8 2 s) with
    | Some y, Some m, Some d =>
        if negb (String.eqb (substring 4 1 s) "-") then None
        else if negb (String.eqb (substring 7 1 s) "-") then None
        else
          let r := mkDate y m d in
          if date_ok r then Some r else None
    | _, _, _ => None
    end.

Class Python := {
  fromisoformat : string -> option Date;
  fromisoformat_isoformat :
    forall d, date_ok d = true -> fromisoformat (isoformat d) = Some d;
  fromisoformat_ok :
    forall s d, fromisoformat s = Some d -> date_ok d = true
}.

(** ** Times of day: [datetime.time]

    What the TIME column holds and what psycopg2 hands back for it. *)

Record Time := mkTime { hour : Z; minute : Z; second : Z; microsecond : Z }.

Global Instance Time_eq_dec : EqDecision Time.
Proof. solve_decision. Defined.

Definition time_ok (t : Time) : bool :=
  (0 <=? hour t) && (hour t <? 24) && (0 <=? minute t) && (minute t <? 60)
  && (0 <=? second t) && (second t <? 60)
  && (0 <=? microsecond t) && (microsecond t <? 1000000).

(** The end of the day, [24:00:00]: the TIME column takes it and keeps it
    apart from [00:00:00]. *)
Definition end_of_day : Time := mkTime 24 0 0 0.

(** What the TIME column can hold. *)
Definition pg_time_ok (t : Time) : bool :=
  time_ok t || bool_decide (t = end_of_day).

(** The [datetime.time] psycopg2 hands back for a stored TIME: hour 24
    comes back as hour 0. *)
Definition to_py_time (t : Time) : Time :=
  if hour t =? 24 then mkTime 0 (minute t) (second t) (microsecond t) else t.

(** [t.strftime('%H:%M')]. *)
Definition strftime_HM (t : Time) : string :=
  fmt_0d 2 (hour t) +:+ ":" +:+ fmt_0d 2 (minute t).

(** A time on a whole minute. *)
Definition whole_minute (t : Time) : bool :=
  (second t =? 0) && (microsecond t =? 0).

(** ** The slot labels of a day ([index], the two nested loops) *)

Definition range (n : nat) : list Z := map Z.of_nat (seq 0 n).

(** [range(start, stop, step)] for a positive step. *)
Definition range3 (start stop step : Z) : list Z :=
  map (fun i => start + Z.of_nat i * step)
      (seq 0 (Z.to_nat ((stop - start + step - 1) / step))).

Definition slot_label (h m : Z) : string := fmt_0d 2 h +:+ ":" +:+ fmt_0d 2 m.

Definition time_slots : list string :=
  flat_map (fun h => map (fun m => slot_label h m) (range3 0 60 15)) (range 24).

(** ** The table [time_log]

    [[
    CREATE TABLE IF NOT EXISTS time_log (
        id SERIAL PRIMARY KEY,
        entry_date DATE NOT NULL, time_slot TIME NOT NULL,
        activity TEXT, category TEXT, priority TEXT, notes TEXT,
        UNIQUE (entry_date, time_slot));
    ]]
    A text column holds [None] for NULL. *)

Record Row := mkRow {
  id : Z;
  entry_date : Date;
  time_slot : Time;
  activity : option string;
  category : option string;
  priority : option string;
  notes : option string
}.

Global Instance Row_eq_dec : EqDecision Row.
Proof. solve_decision. Defined.

(** The key of the uniqueness constraint. *)
Definition key_of (r : Row) : Date * Time := (entry_date r, time_slot r).

Definition has_key (d : Date) (t : Time) (r : Row) : bool :=
  bool_decide (key_of r = (d, t)).

(** [UNIQUE (entry_date, time_slot)]. *)
Definition unique_keys (rows : list Row) : Prop := NoDup (map key_of rows).

(** The constraint on a table that may not exist yet. *)
Definition table_ok (tl : option (list Row)) : Prop :=
  match tl with
  | Some rows => unique_keys rows
  | None => True
  end.

(** *** The upsert of [save_entry]

    [[
    INSERT INTO time_log (entry_date, time_slot, activity, category, priority, notes)
    VALUES (%s, %s, %s, %s, %s, %s)
    ON CONFLICT (entry_date, time_slot)
    DO UPDATE SET activity = EXCLUDED.activity, category = EXCLUDED.category,
                  priority = EXCLUDED.priority, notes = EXCLUDED.notes;
    ]]
    [fresh] is the value drawn from the sequence of [id] for the row
    proposed for insertion. *)

Definition do_update (a c p n : option string) (r : Row) : Row :=
  {| id := id r; entry_date := entry_date r; time_slot := time_slot r;
     activity := a; category := c; priority := p; notes := n |}.

Definition upsertEntry (fresh : Z) (d : Date) (t : Time)
    (a c p n : option string) (rows : list Row) : list Row :=
  if existsb (has_key d t) rows
  then map (fun r => if has_key d t r then do_update a c p n r else r) rows
  else rows ++ [mkRow fresh d t a c p n].

(** *** The day query of [index]

    [[
    SELECT time_slot, activity, category, priority, notes
    FROM time_log WHERE entry_date = %s
    ]]
    The statement has no ORDER BY: the store may hand the rows back in any
    order.  [select_day] lists them in table order; the theorems on the day
    mapping quantify over every permutation of that list.  Each TIME comes
    back as the [datetime.time] psycopg2 makes of it, [to_py_time]. *)

Record Fields := mkFields {
  f_activity : option string;
  f_category : option string;
  f_priority : option string;
  f_notes : option string
}.

Global Instance Fields_eq_dec : EqDecision Fields.
Proof. solve_decision. Defined.

Definition fields_of (r : Row) : Fields :=
  mkFields (activity r) (category r) (priority r) (notes r).

Definition select_day (d : Date) (rows : list Row) : list (Time * Fields) :=
  map (fun r => (to_py_time (time_slot r), fields_of r))
      (filter (fun r => entry_date r = d) rows).

(** The key a stored time of day gets in the day mapping: the [HH:MM] of
    the time as fetched. *)
Definition label_of (t : Time) : string := strftime_HM (to_py_time t).

(** The dict comprehension
    [{row[0].strftime('%H:%M'): {'activity': row[1], ...} for row in entries_list}]:
    a later row replaces an earlier one under the same key. *)
Definition entries_of (fetched : list (Time * Fields)) : gmap string Fields :=
  foldl (fun m r => <[strftime_HM (fst r) := snd r]> m) ∅ fetched.

Definition listEntriesForDate (d : Date) (rows : list Row) : gmap string Fields :=
  entries_of (select_day d rows).

(** *** The dashboard query of [index]

    [[
    SELECT category, COUNT( * ) * 0.25 as total_hours
    FROM time_log
    WHERE category IS NOT NULL AND category != ''
    GROUP BY category
    ORDER BY total_hours DESC
    ]]
    The product of a count and the literal [0.25] is an exact decimal, held
    here as a rational.  SQL leaves the order of groups with equal totals
    open; the model keeps them in order of first appearance. *)

(** The WHERE clause: the category of a row that takes part. *)
Definition kept_category (r : Row) : option string :=
  match category r with
  | Some c => if String.eqb c "" then None else Some c
  | None => None
  end.

(** [COUNT( * )] of the group of [c]. *)
Definition count_rows (c : string) (cs : list string) : Z :=
  Z.of_nat (length (filter (fun x => x = c) cs)).

Definition group_by_category (rows : list Row) : list (string * Z) :=
  let cs := omap kept_category rows in
  map (fun c => (c, count_rows c cs)) (remove_dups cs).

Definition total_hours (k : Z) : Q := (inject_Z k * 0.25)%Q.

(** [ORDER BY total_hours DESC], as a stable insertion sort. *)
Fixpoint insert_desc (x : string * Q) (l : list (string * Q)) : list (string * Q) :=
  match l with
  | [] => [x]
  | y :: l' =>
      if Qle_bool (snd y) (snd x) then x :: y :: l' else y :: insert_desc x l'
  end.

Definition order_by_hours_desc (l : list (string * Q)) : list (string * Q) :=
  foldr insert_desc [] l.

Definition computeCategoryTotals (rows : list Row) : list (string * Q) :=
  order_by_hours_desc
    (map (fun g => (fst g, total_hours (snd g))) (group_by_category rows)).

(** ['%.2f'|format(h)]: exact on the multiples of a quarter the query
    yields; other values are cut after the second decimal. *)
Definition format_2f (h : Q) : string :=
  let c := Qfloor (h * 100)%Q in
  str_int (c / 100) +:+ "." +:+ fmt_0d 2 (c mod 100).

(** ** The page: [HTML_TEMPLATE] and [render_template_string]

    The text of the template between its tags, verbatim; inside these
    literals a backquote stands for the double quote of the HTML, and [unq]
    puts the double quote back. *)

Definition dquote : ascii := ascii_of_nat 34.

Fixpoint unq (s : string) : string :=
  match s with
  | EmptyString => EmptyString
  | String c s' => String (if Ascii.eqb c "`" then dquote else c) (unq s')
  end.

(** Up to [{% if dashboard_data %}]. *)
Definition lit_head : string := unq "
<!DOCTYPE html>
<html lang=`en` class=`dark`>
<head>
    <meta charset=`UTF-8`>
    <meta name=`viewport` content=`width=device-width, initial-scale=1.0`>
    <title>15-Minute Tracker</title>
    <script src=`https://cdn.tailwindcss.com`></script>
    <style>
        body { font-family: 'Inter', sans-serif; }
        .dark { color-scheme: dark; }
    </style>
</head>
<body class=`bg-gray-900 text-gray-200 p-4 sm:p-6 lg:p-8`>
    <div class=`max-w-7xl mx-auto`>
        <header class=`text-center mb-8`>
            <h1 class=`text-4xl font-bold text-white tracking-tight`>15-Minute Time Tracker</h1>
            <p class=`text-gray-400 mt-2`>Meticulously track your schedule, priorities, and focus.</p>
        </header>

        <main class=`grid grid-cols-1 lg:grid-cols-3 gap-8`>
            
            <!-- Left Column: Dashboard -->
            <aside class=`lg:col-span-1 space-y-6`>
                 <div class=`bg-gray-800 p-6 rounded-lg shadow-lg`>
                    <h2 class=`text-2xl font-semibold text-white mb-4`>Dashboard</h2>
                    ".

(** Up to [{% for item in dashboard_data %}]. *)
Definition lit_dash_list_open : string := unq "
                        <ul class=`space-y-3`>
                        ".

(** Up to [{{ item(0) }}]. *)
Definition lit_dash_item_open : string := unq "
                            <li class=`flex justify-between items-center bg-gray-700 p-3 rounded-md`>
                                <span class=`font-medium text-white`>".

(** Up to [{{ '%.2f'|format(item(1)) }}]. *)
Definition lit_dash_item_mid : string := unq "</span>
                                <span class=`text-lg font-semibold text-cyan-400`>".

(** Up to [{% endfor %}]. *)
Definition lit_dash_item_close : string := unq " hrs</span>
                            </li>
                        ".

(** Up to [{% else %}]. *)
Definition lit_dash_list_close : string := unq "
                        </ul>
                    ".

(** Up to [{% endif %}]. *)
Definition lit_dash_empty : string := unq "
                        <p class=`text-gray-400`>No data yet. Start tracking to see your summary here!</p>
                    ".

(** Up to [{{ url_for('index', date=prev_day) }}]. *)
Definition lit_nav_open : string := unq "
                </div>
            </aside>

            <!-- Right Column: Daily Log -->
            <div class=`lg:col-span-2`>
                <div class=`bg-gray-800 p-6 rounded-lg shadow-lg`>
                    <div class=`flex flex-col sm:flex-row justify-between items-center mb-6`>
                        <h2 class=`text-2xl font-semibold text-white`>Daily Log</h2>
                        <div class=`flex items-center space-x-2 mt-4 sm:mt-0`>
                            <a href=`".

(** Up to [{{ url_for('index', date=today_day) }}]. *)
Definition lit_nav_prev_today : string := unq "` class=`bg-gray-700 hover:bg-gray-600 text-white font-bold py-2 px-4 rounded-lg transition-colors`>&larr; Prev</a>
                            <a href=`".

(** Up to [{{ current_date.strftime('%A, %B %d, %Y') }}]. *)
Definition lit_nav_today_label : string := unq "` class=`bg-cyan-600 hover:bg-cyan-500 text-white font-bold py-2 px-4 rounded-lg transition-colors text-center`>".

(** Up to [{{ url_for('index', date=next_day) }}]. *)
Definition lit_nav_label_next : string := unq "</a>
                            <a href=`".

(** Up to [{% for slot in time_slots %}]. *)
Definition lit_nav_close : string := unq "` class=`bg-gray-700 hover:bg-gray-600 text-white font-bold py-2 px-4 rounded-lg transition-colors`>Next &rarr;</a>
                        </div>
                    </div>

                    <div class=`space-y-4`>
                        ".

(** Up to [{% set entry = entries.get(slot) %}]. *)
Definition lit_slot_set : string := unq "
                            ".

(** Up to [{{ slot }}]. *)
Definition lit_slot_open : string := unq "
                            <div class=`bg-gray-900/50 p-4 rounded-lg` x-data=`{ open: false }`>
                                <div class=`flex items-center cursor-pointer` @click=`open = !open`>
                                    <span class=`font-mono text-lg text-cyan-400 w-20`>".

(** Up to [{% if entry %}]. *)
Definition lit_slot_label_close : string := unq "</span>
                                    <div class=`flex-grow ml-4`>
                                        ".

(** Up to [{{ entry.activity or 'No activity logged' }}]. *)
Definition lit_entry_open : string := unq "
                                            <p class=`font-semibold text-white`>".

(** Up to [{{ entry.category or 'Uncategorized' }}]. *)
Definition lit_entry_mid : string := unq "</p>
                                            <p class=`text-sm text-gray-400`>".

(** Up to [{% else %}]. *)
Definition lit_entry_close : string := unq "</p>
                                        ".

(** Up to [{% endif %}]. *)
Definition lit_entry_empty : string := unq "
                                            <p class=`text-gray-500`>Empty slot...</p>
                                        ".

(** Up to [{{ url_for('save_entry') }}]. *)
Definition lit_form_open : string := unq "
                                    </div>
                                    <button class=`ml-4 text-gray-400 hover:text-white transition-transform` :class=`{'rotate-180': open}`>
                                        <svg xmlns=`http://www.w3.org/2000/svg` class=`h-6 w-6` fill=`none` viewBox=`0 0 24 24` stroke=`currentColor`><path stroke-linecap=`round` stroke-linejoin=`round` stroke-width=`2` d=`M19 9l-7 7-7-7` /></svg>
                                    </button>
                                </div>
                                <div x-show=`open` x-transition class=`mt-4 pt-4 border-t border-gray-700`>
                                    <form action=`".

(** Up to [{{ date_str }}]. *)
Definition lit_form_action_date : string := unq "` method=`post` class=`space-y-4`>
                                        <input type=`hidden` name=`entry_date` value=`".

(** Up to [{{ slot }}]. *)
Definition lit_form_date_slot : string := unq "`>
                                        <input type=`hidden` name=`time_slot` value=`".

(** Up to [{{ entry.activity if entry else '' }}]. *)
Definition lit_form_slot_activity : string := unq "`>
                                        
                                        <div>
                                            <label class=`block text-sm font-medium text-gray-300`>Activity</label>
                                            <input type=`text` name=`activity` value=`".

(** Up to [{{ entry.category if entry else '' }}]. *)
Definition lit_form_activity_category : string := unq "` placeholder=`e.g., Wrote project proposal` class=`mt-1 block w-full bg-gray-700 border-gray-600 rounded-md shadow-sm focus:ring-cyan-500 focus:border-cyan-500 text-white`>
                                        </div>
                                        <div>
                                            <label class=`block text-sm font-medium text-gray-300`>Category</label>
                                            <input type=`text` name=`category` value=`".

(** Up to [{{ entry.priority if entry else '' }}]. *)
Definition lit_form_category_priority : string := unq "` placeholder=`e.g., Deep Work, Admin, Leisure` class=`mt-1 block w-full bg-gray-700 border-gray-600 rounded-md shadow-sm focus:ring-cyan-500 focus:border-cyan-500 text-white`>
                                        </div>
                                        <div>
                                            <label class=`block text-sm font-medium text-gray-300`>Intended Priority</label>
                                            <input type=`text` name=`priority` value=`".

(** Up to [{{ entry.notes if entry else '' }}]. *)
Definition lit_form_priority_notes : string := unq "` placeholder=`e.g., Finish Q3 report` class=`mt-1 block w-full bg-gray-700 border-gray-600 rounded-md shadow-sm focus:ring-cyan-500 focus:border-cyan-500 text-white`>
                                        </div>
                                        <div>
                                            <label class=`block text-sm font-medium text-gray-300`>Mental Focus / Notes</label>
                                            <textarea name=`notes` rows=`2` placeholder=`e.g., Felt focused but distracted by emails` class=`mt-1 block w-full bg-gray-700 border-gray-600 rounded-md shadow-sm focus:ring-cyan-500 focus:border-cyan-500 text-white`>".

(** Up to [{% endfor %}]. *)
Definition lit_form_close : string := unq "</textarea>
                                        </div>
                                        <div class=`text-right`>
                                            <button type=`submit` class=`inline-flex justify-center py-2 px-4 border border-transparent shadow-sm text-sm font-medium rounded-md text-white bg-cyan-600 hover:bg-cyan-700 focus:outline-none focus:ring-2 focus:ring-offset-2 focus:ring-cyan-500 focus:ring-offset-gray-800`>Save Entry</button>
                                        </div>
                                    </form>
                                </div>
                            </div>
                        ".

(** Up to [the end of the template]. *)
Definition lit_tail : string := unq "
                    </div>
                </div>
            </div>
        </main>
    </div>
    <script src=`https://cdn.jsdelivr.net/npm/alpinejs@3.x.x/dist/cdn.min.js` defer></script>
</body>
</html>".

(** *** Template evaluation

    Evaluating the template yields its literal text interleaved with the
    values of its [{{ ... }}] expressions.  [render_template_string] turns
    autoescaping on, so every expression value goes through
    [markupsafe.escape] on its way to the document. *)

Inductive Seg :=
  | Lit (s : string)    (** text of the template itself *)
  | Expr (v : string).  (** the value of an expression, before escaping *)

Definition escape_char (c : ascii) : string :=
  if Ascii.eqb c "&" then "&amp;"
  else if Ascii.eqb c "<" then "&lt;"
  else if Ascii.eqb c ">" then "&gt;"
  else if Ascii.eqb c "'" then "&#39;"
  else if Ascii.eqb c dquote then "&#34;"
  else String c EmptyString.

(** [markupsafe.escape]. *)
Fixpoint escape (s : string) : string :=
  match s with
  | EmptyString => EmptyString
  | String c s' => escape_char c +:+ escape s'
  end.

Definition emit (g : Seg) : string :=
  match g with
  | Lit s => s
  | Expr v => escape v
  end.

Fixpoint join (l : list string) : string :=
  match l with
  | [] => EmptyString
  | s :: l' => s +:+ join l'
  end.

(** What the handler passes to the template. *)
Record Context := mkContext {
  c_time_slots : list string;
  c_entries : gmap string Fields;
  c_current_date : Date;
  c_date_str : string;
  c_dashboard_data : list (string * Q);
  c_prev_day : string;
  c_next_day : string;
  c_today_day : string
}.

(** [str(v)] of a nullable text value. *)
Definition py_str (v : option string) : string :=
  match v with
  | Some s => s
  | None => "None"
  end.

(** [v or d]: [None] and the empty string are false. *)
Definition py_or (v : option string) (d : string) : string :=
  match v with
  | Some s => if String.eqb s "" then d else s
  | None => d
  end.

(** [entry.field if entry else '']. *)
Definition field_or_empty (entry : option Fields) (f : Fields -> option string) : string :=
  match entry with
  | Some e => py_str (f e)
  | None => ""
  end.

(** [url_for('index', date=d)] for an ISO date, which needs no quoting, and
    [url_for('save_entry')]. *)
Definition url_for_index (d : string) : string := "/?date=" +:+ d.
Definition url_for_save_entry : string := "/save_entry".

Definition day_name (wd : Z) : string :=
  nth (Z.to_nat wd)
      ["Monday"; "Tuesday"; "Wednesday"; "Thursday"; "Friday"; "Saturday"; "Sunday"] "".

Definition month_name (m : Z) : string :=
  nth (Z.to_nat (m - 1))
      ["January"; "February"; "March"; "April"; "May"; "June"; "July";
       "August"; "September"; "October"; "November"; "December"] "".

(** [d.strftime('%A, %B %d, %Y')], C locale. *)
Definition strftime_long (d : Date) : string :=
  day_name (weekday d) +:+ ", " +:+ month_name (month d) +:+ " "
  +:+ fmt_0d 2 (day d) +:+ ", " +:+ str_int (year d).

Definition dashboard_item (item : string * Q) : list Seg :=
  [Lit lit_dash_item_open; Expr (fst item); Lit lit_dash_item_mid;
   Expr (format_2f (snd item)); Lit lit_dash_item_close].

Definition dashboard_block (data : list (string * Q)) : list Seg :=
  match data with
  | [] => [Lit lit_dash_empty]
  | _ => [Lit lit_dash_list_open] ++ flat_map dashboard_item data
         ++ [Lit lit_dash_list_close]
  end.

Definition slot_block (ctx : Context) (slot : string) : list Seg :=
  let entry := c_entries ctx !! slot in
  [Lit lit_slot_set; Lit lit_slot_open; Expr slot; Lit lit_slot_label_close]
  ++ match entry with
     | Some e =>
         [Lit lit_entry_open; Expr (py_or (f_activity e) "No activity logged");
          Lit lit_entry_mid; Expr (py_or (f_category e) "Uncategorized");
          Lit lit_entry_close]
     | None => [Lit lit_entry_empty]
     end
  ++ [Lit lit_form_open; Expr url_for_save_entry;
      Lit lit_form_action_date; Expr (c_date_str ctx);
      Lit lit_form_date_slot; Expr slot;
      Lit lit_form_slot_activity; Expr (field_or_empty entry f_activity);
      Lit lit_form_activity_category; Expr (field_or_empty entry f_category);
      Lit lit_form_category_priority; Expr (field_or_empty entry f_priority);
      Lit lit_form_priority_notes; Expr (field_or_empty entry f_notes);
      Lit lit_form_close].

Definition template (ctx : Context) : list Seg :=
  [Lit lit_head] ++ dashboard_block (c_dashboard_data ctx)
  ++ [Lit lit_nav_open; Expr (url_for_index (c_prev_day ctx));
      Lit lit_nav_prev_today; Expr (url_for_index (c_today_day ctx));
      Lit lit_nav_today_label; Expr (strftime_long (c_current_date ctx));
      Lit lit_nav_label_next; Expr (url_for_index (c_next_day ctx));
      Lit lit_nav_close]
  ++ flat_map (slot_block ctx) (c_time_slots ctx)
  ++ [Lit lit_tail].

Definition render_template_string (ctx : Context) : string :=
  join (map emit (template ctx)).

(** ** The world of a handler

    The store behind [psycopg2], the connections the process holds open and
    what it printed.  [faults] is the environment's script for the round
    trips to the server: each [execute] and each [commit] takes the head of
    the list, and [Some e] there makes that call raise [e]. *)

Inductive exn :=
  | OperationalError
  | ProgrammingError
  | DataError
  | OverflowError
  | ValueError
  | BadRequestKeyError (key : string).

Record World := mkWorld {
  today : Date;                      (** [date.today()] *)
  reachable : bool;                  (** whether [psycopg2.connect] succeeds *)
  faults : list (option exn);
  time_log : option (list Row);      (** the committed table, if it exists *)
  serial : Z;                        (** next value of the sequence of [id] *)
  open_conns : nat;                  (** connections opened and not closed *)
  console : list string              (** lines printed, oldest first *)
}.

Inductive Exc (A : Type) :=
  | Ok (a : A)
  | Raise (e : exn).
Arguments Ok {A} a.
Arguments Raise {A} e.

(** A computation that may raise and that changes the world. *)
Definition M (A : Type) : Type := World -> Exc A * World.

Definition ret {A} (a : A) : M A := fun w => (Ok a, w).

Definition raise {A} (e : exn) : M A := fun w => (Raise e, w).

Definition bind {A B} (c : M A) (k : A -> M B) : M B :=
  fun w =>
    match c w with
    | (Ok a, w') => k a w'
    | (Raise e, w') => (Raise e, w')
    end.

Notation "'let!' x ':=' c 'in' k" := (bind c (fun x => k))
  (at level 10, x name, c at level 100, k at level 200, only parsing).
Notation "'do!' c 'in' k" := (bind c (fun _ => k))
  (at level 10, c at level 100, k at level 200, only parsing).

(** [try: body / except <those e with catches e = true>: handler]. *)
Definition try_except {A} (body : M A) (catches : exn -> bool)
    (handler : exn -> M A) : M A :=
  fun w =>
    match body w with
    | (Raise e, w') => if catches e then handler e w' else (Raise e, w')
    | r => r
    end.

(** [try: body / finally: cleanup]. *)
Definition try_finally {A} (body : M A) (cleanup : M unit) : M A :=
  fun w =>
    match body w with
    | (r, w') =>
        match cleanup w' with
        | (Ok _, w'') => (r, w'')
        | (Raise e, w'') => (Raise e, w'')
        end
    end.

Definition print (line : string) : M unit :=
  fun w => (Ok tt, mkWorld (today w) (reachable w) (faults w) (time_log w)
                           (serial w) (open_conns w) (console w ++ [line])).

Definition date_today : M Date := fun w => (Ok (today w), w).

(** One round trip to the server. *)
Definition round_trip : M unit :=
  fun w =>
    match faults w with
    | [] => (Ok tt, w)
    | f :: rest =>
        let w' := mkWorld (today w) (reachable w) rest (time_log w)
                          (serial w) (open_conns w) (console w) in
        match f with
        | Some e => (Raise e, w')
        | None => (Ok tt, w')
        end
    end.

(** A connection with its open transaction: [work] is the table as the
    transaction sees it, the committed table plus its own writes. *)
Record Conn := mkConn { work : option (list Row) }.

(** [psycopg2.connect(...)]. *)
Definition connect : M Conn :=
  fun w =>
    if reachable w
    then (Ok (mkConn (time_log w)),
          mkWorld (today w) (reachable w) (faults w) (time_log w)
                  (serial w) (S (open_conns w)) (console w))
    else (Raise OperationalError, w).

(** [conn.close()]: the open transaction is dropped. *)
Definition close (c : Conn) : M unit :=
  fun w => (Ok tt, mkWorld (today w) (reachable w) (faults w) (time_log w)
                           (serial w) (pred (open_conns w)) (console w)).

(** [conn.commit()]. *)
Definition commit (c : Conn) : M unit :=
  do! round_trip in
  fun w => (Ok tt, mkWorld (today w) (reachable w) (faults w) (work c)
                           (serial w) (open_conns w) (console w)).

(** [nextval] of the sequence of [id]; it is not undone by a rollback. *)
Definition nextval : M Z :=
  fun w => (Ok (serial w),
            mkWorld (today w) (reachable w) (faults w) (time_log w)
                    (serial w + 1) (open_conns w) (console w)).

(** [cur.execute("CREATE TABLE IF NOT EXISTS time_log ...")]. *)
Definition execute_create_table (c : Conn) : M Conn :=
  do! round_trip in
  ret (mkConn (Some (default [] (work c)))).

(** A statement on [time_log] fails when the relation does not exist. *)
Definition the_table (c : Conn) : M (list Row) :=
  match work c with
  | Some rows => ret rows
  | None => raise ProgrammingError
  end.

(** [cur.execute("SELECT ... WHERE entry_date = %s", (d,))] and
    [cur.fetchall()]. *)
Definition execute_select_day (c : Conn) (d : Date) : M (list (Time * Fields)) :=
  do! round_trip in
  let! rows := the_table c in
  ret (select_day d rows).

(** [cur.execute("SELECT category, COUNT( * ) * 0.25 ...")] and
    [cur.fetchall()]. *)
Definition execute_select_totals (c : Conn) : M (list (string * Q)) :=
  do! round_trip in
  let! rows := the_table c in
  ret (computeCategoryTotals rows).

(** ** [get_db_connection] and [initialize_database] of [app.py] *)

Definition is_operational (e : exn) : bool :=
  match e with
  | OperationalError => true
  | _ => false
  end.

Definition exn_text (e : exn) : string :=
  match e with
  | OperationalError => "OperationalError"
  | ProgrammingError => "ProgrammingError"
  | DataError => "DataError"
  | OverflowError => "OverflowError"
  | ValueError => "ValueError"
  | BadRequestKeyError k => "BadRequestKeyError: " +:+ k
  end.

Definition get_db_connection : M (option Conn) :=
  try_except (let! c := connect in ret (Some c)) is_operational
    (fun e =>
       do! print "Error: Could not connect to PostgreSQL database. Please check your .env configuration and ensure the database is running." in
       do! print ("Details: " +:+ exn_text e) in
       ret None).

Definition initialize_database : M unit :=
  let! conn := get_db_connection in
  match conn with
  | None =>
      print "CRITICAL: Could not connect to database for initialization. Aborting."
  | Some c =>
      try_finally
        (try_except
           (do! print "Initializing database: Checking for 'time_log' table..." in
            let! c' := execute_create_table c in
            do! commit c' in
            print "Database initialized successfully. Table 'time_log' is ready.")
           (fun _ => true)
           (fun e => print ("An error occurred during database initialization: " +:+ exn_text e)))
        (close c)
  end.

(** ** [initialize_database] of [init_db.py]

    The connection is made inside the [try], so [conn] is still [None] in
    the handlers and in the [finally] when the connection attempt is what
    raised.  [attempt] runs a computation and hands back how it ended. *)

Definition attempt {A} (c : M A) : M (Exc A) :=
  fun w => match c w with (r, w') => (Ok r, w') end.

Definition init_db_handlers (e : exn) : M unit :=
  if is_operational e
  then do! print "ERROR: Could not connect to the database.Please check your configuration." in
       print ("Details: " +:+ exn_text e)
  else print ("An unexpected error occurred: " +:+ exn_text e).

Definition init_db_initialize_database : M unit :=
  do! print "Connecting to the database..." in
  let! r := attempt connect in
  match r with
  | Raise e => init_db_handlers e
  | Ok c =>
      try_finally
        (try_except
           (do! print "Connection successful.Creating table 'time_log' if it doesn't exist..." in
            let! c' := execute_create_table c in
            do! commit c' in
            print "Table 'time_log' is ready.")
           (fun _ => true)
           init_db_handlers)
        (do! close c in print "Database connection closed.")
  end.

(** Whether a string holds a NUL character. *)
Fixpoint has_nul (s : string) : bool :=
  match s with
  | EmptyString => false
  | String c s' => Ascii.eqb c zero || has_nul s'
  end.

(** ** The routes of [app.py] *)

Inductive Response :=
  | Page (status : Z) (body : string)
  | RedirectToIndex (date : string).  (** [redirect(url_for('index', date=...))] *)

(** [request.form[k]]: a missing key raises [BadRequestKeyError]. *)
Definition form_get (form : gmap string string) (k : string) : M string :=
  match form !! k with
  | Some v => ret v
  | None => raise (BadRequestKeyError k)
  end.

(** The [OverflowError] of date arithmetic. *)
Definition or_overflow {A} (o : option A) : M A :=
  match o with
  | Some a => ret a
  | None => raise OverflowError
  end.

Definition connection_error_page : string :=
  "<h1>Database Connection Error</h1><p>Could not connect to the database. Please check the console for details and verify your .env file settings.</p>".

(** [index], the view of [GET /]; [args] is [request.args]. *)
Definition index `{Python} (args : gmap string string) : M Response :=
  let! t := date_today in
  let date_str := default (isoformat t) (args !! "date") in
  let current_date := default t (fromisoformat date_str) in
  let! conn := get_db_connection in
  match conn with
  | None => ret (Page 500 connection_error_page)
  | Some c =>
      let! entries_list := execute_select_day c current_date in
      let entries := entries_of entries_list in
      let! dashboard_data := execute_select_totals c in
      do! close c in
      let! prev_day := or_overflow (date_add_days current_date (-1)) in
      let! next_day := or_overflow (date_add_days current_date 1) in
      let! today_day := date_today in
      ret (Page 200 (render_template_string
                       (mkContext time_slots entries current_date
                                  (isoformat current_date) dashboard_data
                                  (isoformat prev_day) (isoformat next_day)
                                  (isoformat today_day))))
  end.

Section Routes.

(** The store's conversions from text for the DATE and the TIME column;
    [None] when it refuses the text.  The handler hands the form values
    over as they came. *)
Variable date_in : string -> option Date.
Variable time_in : string -> option Time.
Context {py : Python}.

(** [cur.execute("INSERT INTO time_log ... ON CONFLICT ... DO UPDATE ...", (...))].
    psycopg2 writes the parameters into the statement before it sends it,
    and refuses a string with a NUL character: [ValueError], nothing sent. *)
Definition execute_upsert (c : Conn)
    (v_date v_slot v_activity v_category v_priority v_notes : string) : M Conn :=
  if existsb has_nul [v_date; v_slot; v_activity; v_category; v_priority; v_notes]
  then raise ValueError
  else
  do! round_trip in
  let! rows := the_table c in
  match date_in v_date, time_in v_slot with
  | Some d, Some t =>
      let! fresh := nextval in
      ret (mkConn (Some (upsertEntry fresh d t (Some v_activity) (Some v_category)
                                     (Some v_priority) (Some v_notes) rows)))
  | _, _ => raise DataError
  end.

(** [save_entry], the view of [POST /save_entry]; [form] is [request.form]. *)
Definition save_entry (form : gmap string string) : M Response :=
  let! v_date := form_get form "entry_date" in
  let! v_slot := form_get form "time_slot" in
  let! v_activity := form_get form "activity" in
  let! v_category := form_get form "category" in
  let! v_priority := form_get form "priority" in
  let! v_notes := form_get form "notes" in
  let! conn := get_db_connection in
  match conn with
  | None => ret (Page 500 "<h1>Database Connection Error</h1>")
  | Some c =>
      let! c' := execute_upsert c v_date v_slot v_activity v_category v_priority v_notes in
      do! commit c' in
      do! close c' in
      ret (RedirectToIndex v_date)
  end.

(** What the process does, one step at a time. *)
Inductive Request :=
  | Startup
  | GetIndex (args : gmap string string)
  | PostSaveEntry (form : gmap string string).

(** Flask turns an exception that leaves a view into a response: a
    [BadRequestKeyError] into 400, anything else into 500. *)
Definition flask_response (r : Exc Response) : Response :=
  match r with
  | Ok resp => resp
  | Raise (BadRequestKeyError _) => Page 400 "Bad Request"
  | Raise _ => Page 500 "Internal Server Error"
  end.

Definition serve (view : M Response) (w : World) : Response * World :=
  match view w with (r, w') => (flask_response r, w') end.

Definition step (w : World) (rq : Request) : World :=
  match rq with
  | Startup => snd (initialize_database w)
  | GetIndex args => snd (serve (index args) w)
  | PostSaveEntry form => snd (serve (save_entry form) w)
  end.

Definition run (w : World) (rqs : list Request) : World := foldl step w rqs.

End Routes.

(** Sample conversions for the examples: the ISO spellings [YYYY-MM-DD],
    [HH:MM] and [HH:MM:SS], which the store accepts among others, the end of
    the day [24:00] included. *)
Definition iso_date_in (s : string) : option Date := fromisoformat_ymd s.

Definition iso_time_in (s : string) : option Time :=
  let n := String.length s in
  if negb (Nat.eqb n 5 || Nat.eqb n 8) then None
  else if negb (String.eqb (substring 2 1 s) ":") then None
  else if Nat.eqb n 8 && negb (String.eqb (substring 5 1 s) ":") then None
  else
    match parse_digits (substring 0 2 s), parse_digits (substring 3 2 s),
          (if Nat.eqb n 8 then parse_digits (substring 6 2 s) else Some 0) with
    | Some h, Some m, Some sec =>
        let t := mkTime h m sec 0 in
        if pg_time_ok t then Some t else None
    | _, _, _ => None
    end.

(** The form the page submits for a slot. *)
Definition entry_form (v_date v_slot v_activity v_category v_priority v_notes : string)
    : gmap string string :=
  <["entry_date" := v_date]> (<["time_slot" := v_slot]> (<["activity" := v_activity]>
  (<["category" := v_category]> (<["priority" := v_priority]> (<["notes" := v_notes]> ∅))))).

(** A world whose store is up, with table [rows]. *)
Definition world_with (rows : option (list Row)) : World :=
  mkWorld (mkDate 2024 3 1) true [] rows 1 0 [].

(** ** Predicates of the statements *)

(** The rows of a day carry distinct labels. *)
Definition distinct_labels (d : Date) (rows : list Row) : Prop :=
  forall r r', r ∈ rows -> r' ∈ rows -> entry_date r = d -> entry_date r' = d ->
    label_of (time_slot r) = label_of (time_slot r') ->
    time_slot r = time_slot r'.

(** What it is for [m] to be the mapping of the entries of day [d]:
    every stored row of [d] is there under its label, and nothing else is. *)
Definition day_mapping_exact (rows : list Row) (d : Date) (m : gmap string Fields) : Prop :=
  (forall r, r ∈ rows -> entry_date r = d ->
     m !! label_of (time_slot r) = Some (fields_of r))
  /\ (forall k v, m !! k = Some v ->
       exists r, r ∈ rows /\ entry_date r = d /\ k = label_of (time_slot r)
                 /\ v = fields_of r).

(** The hour and the minute a label stands for. *)
Definition label_time (s : string) : option (Z * Z) :=
  match parse_digits (substring 0 2 s), parse_digits (substring 3 2 s) with
  | Some h, Some m => Some (h, m)
  | _, _ => None
  end.

(** Descending by hours. *)
Definition hours_ge (x y : string * Q) : Prop := (snd y <= snd x)%Q.

(** The stored rows of a category. *)
Definition rows_of_category (c : string) (rows : list Row) : list Row :=
  filter (fun r => category r = Some c) rows.

(** The order of Python's strings, by character code. *)
Definition string_lt (a b : string) : Prop := String.compare a b = Lt.

Global Instance string_lt_dec : RelDecision string_lt.
Proof. intros a b. unfold string_lt. apply _. Defined.

(** The labels of a day, written out. *)
Definition labels_of_a_day : list string :=
  ["00:00"; "00:15"; "00:30"; "00:45"; "01:00"; "01:15"; "01:30"; "01:45";
   "02:00"; "02:15"; "02:30"; "02:45"; "03:00"; "03:15"; "03:30"; "03:45";
   "04:00"; "04:15"; "04:30"; "04:45"; "05:00"; "05:15"; "05:30"; "05:45";
   "06:00"; "06:15"; "06:30"; "06:45"; "07:00"; "07:15"; "07:30"; "07:45";
   "08:00"; "08:15"; "08:30"; "08:45"; "09:00"; "09:15"; "09:30"; "09:45";
   "10:00"; "10:15"; "10:30"; "10:45"; "11:00"; "11:15"; "11:30"; "11:45";
   "12:00"; "12:15"; "12:30"; "12:45"; "13:00"; "13:15"; "13:30"; "13:45";
   "14:00"; "14:15"; "14:30"; "14:45"; "15:00"; "15:15"; "15:30"; "15:45";
   "16:00"; "16:15"; "16:30"; "16:45"; "17:00"; "17:15"; "17:30"; "17:45";
   "18:00"; "18:15"; "18:30"; "18:45"; "19:00"; "19:15"; "19:30"; "19:45";
   "20:00"; "20:15"; "20:30"; "20:45"; "21:00"; "21:15"; "21:30"; "21:45";
   "22:00"; "22:15"; "22:30"; "22:45"; "23:00"; "23:15"; "23:30"; "23:45"].

(** A string of four characters, and of two. *)
Definition four_digits (s : string) : bool :=
  match s with
  | String _ (String _ (String _ (String _ EmptyString))) => true
  | _ => false
  end.

Definition two_digits (s : string) : bool :=
  match s with
  | String _ (String _ EmptyString) => true
  | _ => false
  end.

(** The six keys [save_entry] reads from the form. *)
Definition form_keys : list string :=
  ["entry_date"; "time_slot"; "activity"; "category"; "priority"; "notes"].

(** The characters that open or close markup and attribute values. *)
Definition is_meta (c : ascii) : bool :=
  Ascii.eqb c "<" || Ascii.eqb c ">" || Ascii.eqb c "'" || Ascii.eqb c dquote.

Fixpoint count_meta (s : string) : nat :=
  match s with
  | EmptyString => 0
  | String c s' => (if is_meta c then 1 else 0) + count_meta s'
  end.

(** Reading character references back, as a browser does with text. *)
Fixpoint unescape (s : string) : string :=
  match s with
  | EmptyString => EmptyString
  | String "&" (String "a" (String "m" (String "p" (String ";" r)))) =>
      String "&" (unescape r)
  | String "&" (String "l" (String "t" (String ";" r))) => String "<" (unescape r)
  | String "&" (String "g" (String "t" (String ";" r))) => String ">" (unescape r)
  | String "&" (String "#" (String "3" (String "9" (String ";" r)))) =>
      String "'" (unescape r)
  | String "&" (String "#" (String "3" (String "4" (String ";" r)))) =>
      String dquote (unescape r)
  | String c s' => String c (unescape s')
  end.

Definition is_lit (g : Seg) : bool :=
  match g with
  | Lit _ => true
  | Expr _ => false
  end.

(** The literal texts of the template. *)
Definition template_literals : list string :=
  [lit_head; lit_dash_list_open; lit_dash_item_open; lit_dash_item_mid;
   lit_dash_item_close; lit_dash_list_close; lit_dash_empty; lit_nav_open;
   lit_nav_prev_today; lit_nav_today_label; lit_nav_label_next; lit_nav_close;
   lit_slot_set; lit_slot_open; lit_slot_label_close; lit_entry_open;
   lit_entry_mid; lit_entry_close; lit_entry_empty; lit_form_open;
   lit_form_action_date; lit_form_date_slot; lit_form_slot_activity;
   lit_form_activity_category; lit_form_category_priority;
   lit_form_priority_notes; lit_form_close; lit_tail].

(** ** Predicates of the further properties *)

(** A complete form: the six keys are there. *)
Definition complete_form (form : gmap string string) : Prop :=
  forall k, k ∈ form_keys -> is_Some (form !! k).

(** What a failed connection attempt prints. *)
Definition connection_failure_lines : list string :=
  ["Error: Could not connect to PostgreSQL database. Please check your .env configuration and ensure the database is running.";
   "Details: OperationalError"].

(** No text field of the row is NULL. *)
Definition no_null (r : Row) : Prop :=
  is_Some (activity r) /\ is_Some (category r) /\ is_Some (priority r)
  /\ is_Some (notes r).

Definition no_nulls (tl : option (list Row)) : Prop :=
  match tl with
  | Some rows => Forall no_null rows
  | None => True
  end.

(** The hours of a dashboard added up. *)
Definition sum_hours (l : list (string * Q)) : Q :=
  foldr (fun x acc => (snd x + acc)%Q) 0%Q l.

(** A row that takes part in the dashboard. *)
Definition is_categorized (r : Row) : bool :=
  match category r with
  | Some c => negb (String.eqb c "")
  | None => false
  end.

Definition sum_counts (l : list (string * Z)) : Z :=
  foldr (fun x acc => snd x + acc) 0 l.

(** The context with another mapping of entries. *)
Definition with_entries (ctx : Context) (m : gmap string Fields) : Context :=
  mkContext (c_time_slots ctx) m (c_current_date ctx) (c_date_str ctx)
            (c_dashboard_data ctx) (c_prev_day ctx) (c_next_day ctx) (c_today_day ctx).

(** Every stored time of day is a valid whole minute. *)
Definition on_whole_minutes (tl : option (list Row)) : Prop :=
  match tl with
  | Some rows =>
      Forall (fun r => time_ok (time_slot r) = true
                       /\ whole_minute (time_slot r) = true) rows
  | None => True
  end.

(** A request that submits a whole minute before [24:00], if it submits a
    time the store can read at all. *)
Definition submits_whole_minute (time_in : string -> option Time) (rq : Request)
    : Prop :=
  match rq with
  | PostSaveEntry form =>
      forall vs t, form !! "time_slot" = Some vs -> time_in vs = Some t ->
        time_ok t = true /\ whole_minute t = true
  | _ => True
  end.

(** [P] holds of the [fuel] integers from [i] on. *)
Fixpoint all_from (fuel : nat) (i : Z) (P : Z -> bool) : bool :=
  match fuel with
  | O => true
  | S fuel' => P i && all_from fuel' (i + 1) P
  end.

(** The day after and the day before on the calendar. *)
Definition succ_date (d : Date) : Date :=
  if day d <? days_in_month (year d) (month d) then mkDate (year d) (month d) (day d + 1)
  else if month d <? 12 then mkDate (year d) (month d + 1) 1
  else mkDate (year d + 1) 1 1.

Definition pred_date (d : Date) : Date :=
  if 1 <? day d then mkDate (year d) (month d) (day d - 1)
  else if 1 <? month d
       then mkDate (year d) (month d - 1) (days_in_month (year d) (month d - 1))
  else mkDate (year d - 1) 12 31.

(** Whether a request is one of the two routes. *)
Definition is_route (rq : Request) : bool :=
  match rq with
  | Startup => false
  | _ => true
  end.

(** * Properties *)

(** ** Dates in ISO form *)

Lemma map_as_fmap {A B} (f : A -> B) (l : list A) : map f l = f <$> l.
Proof. induction l as [|x l IH]; csimpl; congruence. Qed.

Lemma elem_of_range (k : nat) (x : Z) : x ∈ range k <-> 0 <= x < Z.of_nat k.
Proof.
  unfold range. rewrite map_as_fmap, list_elem_of_fmap. split.
  - intros (i & -> & Hi). apply list_elem_of_In, in_seq in Hi. lia.
  - intros Hx. exists (Z.to_nat x). split; [lia|].
    apply list_elem_of_In, in_seq. lia.
Qed.

Lemma In_range (n x : Z) : 0 <= x < n -> In x (range (Z.to_nat n)).
Proof. intros Hx. apply list_elem_of_In, elem_of_range. lia. Qed.

Lemma fmt_year y :
  1 <= y <= 9999 ->
  exists a b c e, fmt_0d 4 y = String a (String b (String c (String e EmptyString)))
                  /\ parse_digits (fmt_0d 4 y) = Some y.
Proof.
  intros Hy.
  assert (forallb (fun y => four_digits (fmt_0d 4 y)
                            && bool_decide (parse_digits (fmt_0d 4 y) = Some y))
                  (range (Z.to_nat 10000)) = true) as Hall by (vm_compute; reflexivity).
  rewrite forallb_forall in Hall. specialize (Hall y (In_range 10000 y ltac:(lia))).
  apply andb_prop in Hall as [H4 Hp]. apply bool_decide_eq_true in Hp.
  destruct (fmt_0d 4 y) as [|a [|b [|c [|e [|]]]]]; try discriminate H4.
  by exists a, b, c, e.
Qed.

Lemma fmt_month_or_day m :
  1 <= m <= 31 ->
  exists a b, fmt_0d 2 m = String a (String b EmptyString)
              /\ parse_digits (fmt_0d 2 m) = Some m.
Proof.
  intros Hm.
  assert (forallb (fun m => two_digits (fmt_0d 2 m)
                            && bool_decide (parse_digits (fmt_0d 2 m) = Some m))
                  (range (Z.to_nat 32)) = true) as Hall by (vm_compute; reflexivity).
  rewrite forallb_forall in Hall. specialize (Hall m (In_range 32 m ltac:(lia))).
  apply andb_prop in Hall as [H2 Hp]. apply bool_decide_eq_true in Hp.
  destruct (fmt_0d 2 m) as [|a [|b [|]]]; try discriminate H2.
  by exists a, b.
Qed.

Lemma days_in_month_le y m : days_in_month y m <= 31.
Proof.
  unfold days_in_month.
  repeat match goal with |- context [if ?b then _ else _] => destruct b end; lia.
Qed.

(** [fromisoformat_ymd] reads back what [isoformat] writes. *)
Lemma fromisoformat_ymd_isoformat d :
  date_ok d = true -> fromisoformat_ymd (isoformat d) = Some d.
Proof.
  intros Hok. pose proof Hok as Hok'. destruct d as [y m dd].
  unfold date_ok, MINYEAR, MAXYEAR in Hok. simpl in Hok.
  pose proof (days_in_month_le y m).
  destruct (fmt_year y) as (a & b & c & e & Hy & Hpy); [lia|].
  destruct (fmt_month_or_day m) as (m1 & m2 & Hm & Hpm); [lia|].
  destruct (fmt_month_or_day dd) as (d1 & d2 & Hd & Hpd); [lia|].
  unfold isoformat. simpl year. simpl month. simpl day.
  rewrite Hy, Hm, Hd in *. unfold fromisoformat_ymd. simpl.
  simpl in Hpy, Hpm, Hpd. rewrite Hpy, Hpm, Hpd. by rewrite Hok'.
Qed.

Lemma fromisoformat_ymd_ok s d : fromisoformat_ymd s = Some d -> date_ok d = true.
Proof.
  unfold fromisoformat_ymd. repeat case_match; try done. by intros [= <-].
Qed.

(** The parser of the versions before 3.11 is one such [Python]; the
    examples run on it. *)
#[global] Instance python_ymd : Python := {|
  fromisoformat := fromisoformat_ymd;
  fromisoformat_isoformat := fromisoformat_ymd_isoformat;
  fromisoformat_ok := fromisoformat_ymd_ok
|}.

(** ** Facts on the upsert *)

Lemma has_key_true d t r : has_key d t r = true <-> key_of r = (d, t).
Proof. unfold has_key. apply bool_decide_eq_true. Qed.

Lemma existsb_has_key d t rows :
  existsb (has_key d t) rows = true <-> (d, t) ∈ map key_of rows.
Proof.
  rewrite existsb_exists, map_as_fmap, list_elem_of_fmap. split.
  - intros (r & Hin & Hk). exists r. apply has_key_true in Hk.
    split; [done | by apply list_elem_of_In].
  - intros (r & Hk & Hin). exists r. split; [by apply list_elem_of_In |].
    by apply has_key_true.
Qed.

Lemma key_of_do_update a c p n r : key_of (do_update a c p n r) = key_of r.
Proof. reflexivity. Qed.

Lemma upsert_keys_present fresh d t a c p n rows :
  existsb (has_key d t) rows = true ->
  map key_of (upsertEntry fresh d t a c p n rows) = map key_of rows.
Proof.
  intros H. unfold upsertEntry. rewrite H, map_map.
  apply map_ext. intros r. by destruct (has_key d t r).
Qed.

Lemma upsert_keys_absent fresh d t a c p n rows :
  existsb (has_key d t) rows = false ->
  upsertEntry fresh d t a c p n rows = rows ++ [mkRow fresh d t a c p n].
Proof. intros H. unfold upsertEntry. by rewrite H. Qed.

Lemma unique_keys_upsert fresh d t a c p n rows :
  unique_keys rows -> unique_keys (upsertEntry fresh d t a c p n rows).
Proof.
  unfold unique_keys. intros Hnd.
  destruct (existsb (has_key d t) rows) eqn:E.
  - by rewrite upsert_keys_present.
  - rewrite upsert_keys_absent by done. rewrite map_app. simpl.
    apply NoDup_app. split; [done |]. split.
    + intros k Hk Hk'. apply list_elem_of_singleton in Hk'. subst k.
      apply existsb_has_key in Hk. simpl in Hk. rewrite E in Hk. discriminate.
    + apply NoDup_singleton.
Qed.

Lemma unique_keys_lookup rows i j r x :
  unique_keys rows -> rows !! i = Some r -> rows !! j = Some x ->
  key_of x = key_of r -> j = i.
Proof.
  unfold unique_keys. rewrite map_as_fmap. intros Hnd Hi Hj Hk.
  eapply NoDup_lookup; [exact Hnd | |].
  - rewrite list_lookup_fmap, Hj. simpl. reflexivity.
  - rewrite list_lookup_fmap, Hi. simpl. by rewrite Hk.
Qed.

Lemma upsert_in_place fresh d t a c p n rows i r :
  unique_keys rows -> rows !! i = Some r -> key_of r = (d, t) ->
  upsertEntry fresh d t a c p n rows = <[i := do_update a c p n r]> rows.
Proof.
  intros Hnd Hi Hk. unfold upsertEntry.
  assert (existsb (has_key d t) rows = true) as ->.
  { apply existsb_has_key. rewrite map_as_fmap. apply list_elem_of_fmap.
    exists r. split; [done |]. by eapply list_elem_of_lookup_2. }
  rewrite map_as_fmap. apply list_eq. intros j.
  rewrite list_lookup_fmap.
  destruct (decide (j = i)) as [->|Hne].
  - rewrite Hi. simpl. rewrite list_lookup_insert_eq by (by eapply lookup_lt_Some).
    by rewrite (proj2 (has_key_true d t r) Hk).
  - rewrite list_lookup_insert_ne by done.
    destruct (rows !! j) as [x|] eqn:Hj; [|done]. simpl.
    destruct (has_key d t x) eqn:Hx; [|done].
    apply has_key_true in Hx. exfalso. apply Hne.
    eapply unique_keys_lookup; eauto. congruence.
Qed.

(** Under the uniqueness constraint a key selects one row at most. *)
Lemma unique_keys_filter rows r :
  unique_keys rows -> r ∈ rows ->
  filter (fun x => key_of x = key_of r) rows = [r].
Proof.
  unfold unique_keys. induction rows as [|x l IH]; intros Hnd Hr.
  - by apply elem_of_nil in Hr.
  - simpl in Hnd. apply NoDup_cons in Hnd as [Hx Hl].
    assert (forall y, y ∈ l -> key_of y ∈ map key_of l) as Hmem.
    { intros y Hy. rewrite map_as_fmap. apply list_elem_of_fmap. eauto. }
    apply elem_of_cons in Hr as [<-|Hr].
    + rewrite filter_cons_True by done. f_equal.
      destruct (filter (fun x => key_of x = key_of r) l) as [|y l'] eqn:E; [done|].
      assert (y ∈ filter (fun x => key_of x = key_of r) l) as Hy
        by (rewrite E; left).
      apply list_elem_of_filter in Hy as [Hk Hy].
      exfalso. apply Hx. rewrite <- Hk. by apply Hmem.
    + rewrite filter_cons_False; [by apply IH|].
      intros Hk. apply Hx. rewrite Hk. by apply Hmem.
Qed.

Lemma upsert_stores fresh d t a c p n rows :
  exists r, r ∈ upsertEntry fresh d t a c p n rows /\ key_of r = (d, t)
            /\ fields_of r = mkFields a c p n.
Proof.
  destruct (existsb (has_key d t) rows) eqn:E.
  - pose proof E as E'.
    apply existsb_exists in E as (x & Hx & Hkx).
    exists (do_update a c p n x). split.
    + unfold upsertEntry. rewrite E'.
      apply list_elem_of_In, in_map_iff. exists x. rewrite Hkx. by split.
    + apply has_key_true in Hkx. by split.
  - rewrite upsert_keys_absent by done.
    exists (mkRow fresh d t a c p n). split; [|by split].
    apply elem_of_app. right. by apply list_elem_of_singleton.
Qed.

(** After an upsert the key has one row, and it holds what was submitted. *)
Lemma upsert_rows_of_key fresh d t a c p n rows :
  unique_keys rows ->
  exists r, filter (fun x => key_of x = (d, t)) (upsertEntry fresh d t a c p n rows) = [r]
            /\ fields_of r = mkFields a c p n.
Proof.
  intros Hnd.
  destruct (upsert_stores fresh d t a c p n rows) as (r & Hr & Hk & Hf).
  exists r. split; [|done]. rewrite <- Hk.
  apply unique_keys_filter; [by apply unique_keys_upsert | done].
Qed.

(** ** The handlers, step by step *)

(** Membership in a list that is written out. *)
Ltac listed := apply list_elem_of_In; simpl; tauto.

(** Case analysis on whatever a handler branches on, innermost first. *)
Ltac split_inner :=
  match goal with
  | |- context [match ?x with _ => _ end] =>
      lazymatch x with
      | context [match _ with _ => _ end] => fail
      | _ => destruct x eqn:?
      end
  end.

Ltac run_handler :=
  cbv [index save_entry initialize_database init_db_initialize_database
       init_db_handlers attempt is_operational
       form_get execute_upsert execute_select_day execute_select_totals
       execute_create_table the_table nextval get_db_connection
       try_finally try_except or_overflow raise date_today
       bind connect commit close print round_trip ret flask_response
       today reachable faults time_log serial open_conns console work snd fst];
  repeat (split_inner; simplify_eq; cbn [fst snd time_log open_conns table_ok]).

Section RouteFacts.

Variable date_in : string -> option Date.
Variable time_in : string -> option Time.
Context {py : Python}.


Lemma step_table_ok w rq :
  table_ok (time_log w) -> table_ok (time_log (step date_in time_in w rq)).
Proof.
  intros Hok. destruct w as [td re fl tl se oc co]. simpl in Hok.
  destruct rq as [|args|form]; unfold step, serve.
  - run_handler; auto. all: destruct tl; simpl; auto; apply NoDup_nil; done.
  - run_handler; auto.
  - run_handler; auto. all: by apply unique_keys_upsert.
Qed.
End RouteFacts.

Section OneRow.

Context {py : Python}.

Lemma run_table_ok date_in time_in rqs w :
  table_ok (time_log w) -> table_ok (time_log (run date_in time_in w rqs)).
Proof.
  revert w. induction rqs as [|rq rqs IH]; intros w Hok; [done|].
  simpl. apply IH. by apply step_table_ok.
Qed.

(** C1.  Whatever requests the process has served, the table holds one row
    at most for a date and a time of day.  On such a table [upsertEntry]
    keeps the constraint; it appends the proposed row when the key is free,
    and otherwise rewrites the four text fields of the row of that key where
    it stands, leaving every other row alone; afterwards the key has exactly
    one row, holding the values submitted (the empty string included), and
    after a second upsert on the same key that row holds the values of the
    second. *)
Theorem one_row_per_date_and_slot
    date_in time_in w rqs rows fresh d t a c p n :
  table_ok (time_log w) ->
  time_log (run date_in time_in w rqs) = Some rows ->
  let rows' := upsertEntry fresh d t a c p n rows in
  unique_keys rows
  /\ unique_keys rows'
  /\ ((d, t) ∉ map key_of rows -> rows' = rows ++ [mkRow fresh d t a c p n])
  /\ (forall i r, rows !! i = Some r -> key_of r = (d, t) ->
        rows' = <[i := mkRow (id r) d t a c p n]> rows)
  /\ (exists r, filter (fun x => key_of x = (d, t)) rows' = [r]
                /\ fields_of r = mkFields a c p n)
  /\ (forall fresh2 a2 c2 p2 n2,
        exists r, filter (fun x => key_of x = (d, t))
                         (upsertEntry fresh2 d t a2 c2 p2 n2 rows') = [r]
                  /\ fields_of r = mkFields a2 c2 p2 n2).
Proof.
  intros Hok Hrun rows'.
  assert (unique_keys rows) as Hu.
  { pose proof (run_table_ok date_in time_in rqs w Hok) as H.
    by rewrite Hrun in H. }
  assert (unique_keys rows') as Hu' by by apply unique_keys_upsert.
  repeat split; try done.
  - intros Hfree. apply upsert_keys_absent.
    destruct (existsb (has_key d t) rows) eqn:E; [|done].
    by apply existsb_has_key in E.
  - intros i r Hi Hk. unfold rows'.
    rewrite (upsert_in_place fresh d t a c p n rows i r Hu Hi Hk).
    unfold do_update. by injection Hk as -> ->.
  - by apply upsert_rows_of_key.
  - intros. by apply upsert_rows_of_key.
Qed.

End OneRow.

Lemma one_row_per_date_and_slot_witness :
  let w := world_with None in
  let rqs := [Startup;
              PostSaveEntry (entry_form "2024-03-01" "09:00" "Write" "Deep Work" "Draft" "ok");
              GetIndex ∅;
              PostSaveEntry (entry_form "2024-03-01" "09:15" "Mail" "Admin" "" "")] in
  let d := mkDate 2024 3 1 in
  let t := mkTime 9 0 0 0 in
  let rows := [mkRow 1 d t (Some "Write") (Some "Deep Work") (Some "Draft") (Some "ok");
               mkRow 2 d (mkTime 9 15 0 0) (Some "Mail") (Some "Admin") (Some "") (Some "")] in
  table_ok (time_log w)
  /\ time_log (run iso_date_in iso_time_in w rqs) = Some rows
  /\ upsertEntry 3 d t (Some "") (Some "") (Some "") (Some "") rows
     = [mkRow 1 d t (Some "") (Some "") (Some "") (Some "");
        mkRow 2 d (mkTime 9 15 0 0) (Some "Mail") (Some "Admin") (Some "") (Some "")].
Proof.
  intros w rqs d t rows.
  assert (table_ok (time_log w)) as H1 by exact I.
  assert (time_log (run iso_date_in iso_time_in w rqs) = Some rows) as H2
    by (vm_compute; reflexivity).
  split; [exact H1 | split; [exact H2 |]].
  destruct (one_row_per_date_and_slot iso_date_in iso_time_in w rqs rows 3 d t
              (Some "") (Some "") (Some "") (Some "") H1 H2)
    as (_ & _ & _ & Hplace & _).
  exact (Hplace 0%nat _ eq_refl eq_refl).
Defined.

(** ** The day mapping *)

Lemma entries_of_snoc (l : list (Time * Fields)) x :
  entries_of (l ++ [x]) = <[strftime_HM (fst x) := snd x]> (entries_of l).
Proof. unfold entries_of. by rewrite foldl_app. Qed.

(** Every binding of the mapping comes from a fetched row. *)
Lemma entries_of_sound (l : list (Time * Fields)) k v :
  entries_of l !! k = Some v -> exists t, (t, v) ∈ l /\ strftime_HM t = k.
Proof.
  induction l as [|[t f] l IH] using rev_ind; intros H.
  - unfold entries_of in H. simpl in H. by rewrite lookup_empty in H.
  - rewrite entries_of_snoc in H. simpl in H.
    destruct (decide (strftime_HM t = k)) as [<-|Hne].
    + rewrite lookup_insert_eq in H. injection H as ->.
      exists t. split; [|done]. apply elem_of_app. right. by left.
    + rewrite lookup_insert_ne in H by done.
      destruct (IH H) as (t' & Hin & Hk). exists t'. split; [|done].
      apply elem_of_app. by left.
Qed.

(** A fetched row is found under its label when every fetched row with
    that label carries the same fields. *)
Lemma entries_of_complete (l : list (Time * Fields)) t v :
  (t, v) ∈ l ->
  (forall t' v', (t', v') ∈ l -> strftime_HM t' = strftime_HM t -> v' = v) ->
  entries_of l !! strftime_HM t = Some v.
Proof.
  induction l as [|[t0 f0] l IH] using rev_ind; intros Hin Hsame.
  - by apply elem_of_nil in Hin.
  - rewrite entries_of_snoc. simpl.
    destruct (decide (strftime_HM t0 = strftime_HM t)) as [He|Hne].
    + rewrite He, lookup_insert_eq. f_equal. apply (Hsame t0); [|done].
      apply elem_of_app. right. by left.
    + rewrite lookup_insert_ne by done. apply IH.
      * apply elem_of_app in Hin as [Hin|Hin]; [done|].
        apply list_elem_of_singleton in Hin. congruence.
      * intros t' v' Hin'. apply Hsame. apply elem_of_app. by left.
Qed.

Lemma elem_of_select_day d rows t v :
  (t, v) ∈ select_day d rows <->
  exists r, r ∈ rows /\ entry_date r = d /\ to_py_time (time_slot r) = t
            /\ fields_of r = v.
Proof.
  unfold select_day. rewrite map_as_fmap, list_elem_of_fmap. split.
  - intros (r & Heq & Hin). apply list_elem_of_filter in Hin as [Hd Hin].
    injection Heq as -> ->. by exists r.
  - intros (r & Hin & Hd & Ht & Hf). exists r. split; [by rewrite Ht, Hf|].
    by apply list_elem_of_filter.
Qed.

Lemma unique_keys_same_key rows r r' :
  unique_keys rows -> r ∈ rows -> r' ∈ rows -> key_of r = key_of r' -> r = r'.
Proof.
  intros Hu Hr Hr' Hk.
  apply list_elem_of_lookup in Hr as [i Hi]. apply list_elem_of_lookup in Hr' as [j Hj].
  assert (i = j) as -> by (eapply unique_keys_lookup; eauto).
  congruence.
Qed.

Lemma elem_of_upsert fresh d t a c p n rows r :
  r ∈ upsertEntry fresh d t a c p n rows ->
  (key_of r = (d, t) /\ fields_of r = mkFields a c p n)
  \/ (r ∈ rows /\ key_of r <> (d, t)).
Proof.
  unfold upsertEntry. destruct (existsb (has_key d t) rows) eqn:E.
  - rewrite map_as_fmap, list_elem_of_fmap. intros (x & -> & Hx).
    destruct (has_key d t x) eqn:Hk.
    + left. apply has_key_true in Hk. by split.
    + right. split; [done|]. intros Hk'. apply has_key_true in Hk'. congruence.
  - rewrite elem_of_app, list_elem_of_singleton. intros [Hr | ->].
    + right. split; [done|]. intros Hk.
      assert (existsb (has_key d t) rows = true); [|congruence].
      apply existsb_has_key. rewrite <- Hk, map_as_fmap.
      by apply list_elem_of_fmap_2.
    + left. by split.
Qed.

(** Labels tell whole minutes apart: a label gives back its hour and its
    minute. *)
Lemma label_time_slot_label h m :
  0 <= h < 24 -> 0 <= m < 60 -> label_time (slot_label h m) = Some (h, m).
Proof.
  intros Hh Hm.
  assert (forallb (fun h => forallb (fun m =>
            bool_decide (label_time (slot_label h m) = Some (h, m))) (range 60))
          (range 24) = true) as Hall by (vm_compute; reflexivity).
  assert (forall k (x : Z), 0 <= x < Z.of_nat k -> In x (range k)) as Hrange.
  { intros k x Hx. unfold range. apply in_map_iff. exists (Z.to_nat x).
    split; [lia|]. apply in_seq. lia. }
  rewrite forallb_forall in Hall. specialize (Hall h (Hrange 24%nat h Hh)).
  rewrite forallb_forall in Hall. specialize (Hall m (Hrange 60%nat m Hm)).
  by apply bool_decide_eq_true in Hall.
Qed.

(** Before 24:00 the driver hands a time back as it is stored. *)
Lemma to_py_time_ok t : time_ok t = true -> to_py_time t = t.
Proof.
  unfold time_ok, to_py_time. intros H.
  destruct (hour t =? 24) eqn:E; [lia|done].
Qed.

Lemma label_of_ok t : time_ok t = true -> label_of t = strftime_HM t.
Proof. intros H. unfold label_of. by rewrite to_py_time_ok. Qed.

Lemma whole_minutes_distinct_labels d rows :
  (forall r, r ∈ rows -> entry_date r = d ->
     time_ok (time_slot r) = true /\ whole_minute (time_slot r) = true) ->
  distinct_labels d rows.
Proof.
  intros Hall r r' Hr Hr' Hd Hd' Hlab.
  destruct (Hall r Hr Hd) as [Hok Hw]. destruct (Hall r' Hr' Hd') as [Hok' Hw'].
  rewrite !label_of_ok in Hlab by done.
  destruct (time_slot r) as [h m s u], (time_slot r') as [h' m' s' u'].
  unfold time_ok, whole_minute in *. simpl in *.
  assert (label_time (slot_label h m) = label_time (slot_label h' m')) as Heq
    by (unfold strftime_HM in Hlab; simpl in Hlab; unfold slot_label; by rewrite Hlab).
  rewrite !label_time_slot_label in Heq by lia.
  injection Heq as -> ->. f_equal; lia.
Qed.

(** C3, as amended.  Whatever order the store returns the rows of the day
    query in, every binding of the mapping is a stored row of the date asked
    for, with its four fields, under the [HH:MM] label of its time of day as
    the driver hands it back, a stored [24:00] as [00:00]; when the rows of
    that date carry distinct labels, every one of them is in the mapping;
    and they do when each is on a whole minute from [00:00] to [23:59]. *)
Theorem day_mapping_of_the_date rows d fetched :
  unique_keys rows ->
  fetched ≡ₚ select_day d rows ->
  (forall k v, entries_of fetched !! k = Some v ->
     exists r, r ∈ rows /\ entry_date r = d /\ k = label_of (time_slot r)
               /\ v = fields_of r)
  /\ (distinct_labels d rows -> day_mapping_exact rows d (entries_of fetched))
  /\ ((forall r, r ∈ rows -> entry_date r = d ->
         time_ok (time_slot r) = true /\ whole_minute (time_slot r) = true) ->
      forall r, r ∈ rows -> entry_date r = d ->
        entries_of fetched !! strftime_HM (time_slot r) = Some (fields_of r)).
Proof.
  intros Hu Hperm.
  assert (forall k v, entries_of fetched !! k = Some v ->
     exists r, r ∈ rows /\ entry_date r = d /\ k = label_of (time_slot r)
               /\ v = fields_of r) as Hsound.
  { intros k v H. apply entries_of_sound in H as (t & Hin & Hk).
    rewrite Hperm in Hin. apply elem_of_select_day in Hin as (r & ? & ? & ? & ?).
    exists r. unfold label_of. subst. done. }
  assert (distinct_labels d rows -> day_mapping_exact rows d (entries_of fetched))
    as Hexact.
  { intros Hdist. split; [|done].
    intros r Hr Hd. apply entries_of_complete.
    - rewrite Hperm. apply elem_of_select_day. by exists r.
    - intros t' v' Hin Hlab. rewrite Hperm in Hin.
      apply elem_of_select_day in Hin as (r' & Hr' & Hd' & <- & <-).
      f_equal. eapply unique_keys_same_key; eauto.
      unfold key_of. f_equal; [congruence|]. by apply Hdist. }
  split; [done|]. split; [done|].
  intros Hwhole r Hr Hd.
  destruct (Hexact (whole_minutes_distinct_labels d rows Hwhole)) as [Hall _].
  rewrite <- label_of_ok by (by apply Hwhole). by apply Hall.
Qed.

Lemma day_mapping_of_the_date_witness :
  let d := mkDate 2024 3 1 in
  let rows := [mkRow 1 d (mkTime 9 0 0 0) (Some "Write") (Some "Deep Work") None (Some "");
               mkRow 2 (mkDate 2024 3 2) (mkTime 9 0 0 0) (Some "Walk") None None None;
               mkRow 3 d (mkTime 9 15 0 0) (Some "Mail") (Some "Admin") (Some "p") (Some "n")] in
  let fetched := [(mkTime 9 15 0 0, mkFields (Some "Mail") (Some "Admin") (Some "p") (Some "n"));
                  (mkTime 9 0 0 0, mkFields (Some "Write") (Some "Deep Work") None (Some ""))] in
  unique_keys rows /\ fetched ≡ₚ select_day d rows /\ distinct_labels d rows
  /\ day_mapping_exact rows d (entries_of fetched).
Proof.
  intros d rows fetched.
  assert (unique_keys rows) as Hu by (apply (bool_decide_unpack _); by vm_compute).
  assert (fetched ≡ₚ select_day d rows) as Hp by apply perm_swap.
  assert (distinct_labels d rows) as Hd.
  { apply whole_minutes_distinct_labels. intros r Hr _.
    repeat (apply elem_of_cons in Hr as [->|Hr]; [by split|]).
    by apply elem_of_nil in Hr. }
  repeat split; try done.
  all: by apply (day_mapping_of_the_date rows d fetched Hu Hp).
Defined.

(** C3, the claim as it is written, fails on tables the handlers build.
    Two rows of one date whose times of day differ in the seconds share one
    label, and the mapping keeps one of them, in whatever order the store
    hands them back.  So do the rows of [00:00] and [24:00], both on whole
    minutes: the driver hands both back as [00:00]. *)
Lemma day_mapping_drops_a_row :
  let d := mkDate 2024 3 1 in
  let rows := [mkRow 1 d (mkTime 9 0 0 0) (Some "a") (Some "") (Some "") (Some "");
               mkRow 2 d (mkTime 9 0 30 0) (Some "b") (Some "") (Some "") (Some "")] in
  let rows24 := [mkRow 1 d (mkTime 0 0 0 0) (Some "a") (Some "") (Some "") (Some "");
                 mkRow 2 d end_of_day (Some "b") (Some "") (Some "") (Some "")] in
  time_log (run iso_date_in iso_time_in (world_with (Some []))
              [PostSaveEntry (entry_form "2024-03-01" "09:00" "a" "" "" "");
               PostSaveEntry (entry_form "2024-03-01" "09:00:30" "b" "" "" "")])
  = Some rows
  /\ unique_keys rows
  /\ (forall fetched, fetched ≡ₚ select_day d rows ->
       ~ day_mapping_exact rows d (entries_of fetched))
  /\ time_log (run iso_date_in iso_time_in (world_with (Some []))
                 [PostSaveEntry (entry_form "2024-03-01" "00:00" "a" "" "" "");
                  PostSaveEntry (entry_form "2024-03-01" "24:00" "b" "" "" "")])
     = Some rows24
  /\ unique_keys rows24
  /\ (forall fetched, fetched ≡ₚ select_day d rows24 ->
       ~ day_mapping_exact rows24 d (entries_of fetched)
       /\ forall v, entries_of fetched !! strftime_HM end_of_day <> Some v).
Proof.
  intros d rows rows24. split; [by vm_compute|]. split; [|split; [|split; [|split]]].
  - apply (bool_decide_unpack _). by vm_compute.
  - intros fetched Hperm [Hall _].
    symmetry in Hperm. apply Permutation_length_2_inv in Hperm as [-> | ->].
    + specialize (Hall (mkRow 1 d (mkTime 9 0 0 0) (Some "a") (Some "") (Some "") (Some ""))).
      discriminate Hall; [by left | done].
    + specialize (Hall (mkRow 2 d (mkTime 9 0 30 0) (Some "b") (Some "") (Some "") (Some ""))).
      discriminate Hall; [right; by left | done].
  - by vm_compute.
  - apply (bool_decide_unpack _). by vm_compute.
  - intros fetched Hperm.
    symmetry in Hperm. apply Permutation_length_2_inv in Hperm as [-> | ->].
    + split; [|by vm_compute]. intros [Hall _].
      specialize (Hall (mkRow 1 d (mkTime 0 0 0 0) (Some "a") (Some "") (Some "") (Some ""))).
      discriminate Hall; [by left | done].
    + split; [|by vm_compute]. intros [Hall _].
      specialize (Hall (mkRow 2 d end_of_day (Some "b") (Some "") (Some "") (Some ""))).
      discriminate Hall; [right; by left | done].
Qed.

(** C2, as amended.  After [upsertEntry] for date [d] and time of day [s],
    and whatever order the store returns the rows of the day query in, the
    mapping of [d] has the four submitted values, unchanged, under the
    [HH:MM] label of [s] as the driver hands it back, a stored [24:00] as
    [00:00], provided no other stored row of [d] carries that label; as when
    [s] and the stored times of [d] are on whole minutes from [00:00] to
    [23:59], and then the label is that of [s] itself. *)
Theorem upsert_then_list rows fresh d s a c p n fetched :
  unique_keys rows ->
  fetched ≡ₚ select_day d (upsertEntry fresh d s a c p n rows) ->
  ((forall r, r ∈ rows -> entry_date r = d ->
      label_of (time_slot r) = label_of s -> time_slot r = s) ->
   entries_of fetched !! label_of s = Some (mkFields a c p n))
  /\ (time_ok s = true -> whole_minute s = true ->
      (forall r, r ∈ rows -> entry_date r = d ->
         time_ok (time_slot r) = true /\ whole_minute (time_slot r) = true) ->
      entries_of fetched !! strftime_HM s = Some (mkFields a c p n)).
Proof.
  intros Hu Hperm.
  assert ((forall r, r ∈ rows -> entry_date r = d ->
             label_of (time_slot r) = label_of s -> time_slot r = s) ->
          entries_of fetched !! label_of s = Some (mkFields a c p n)) as Hkey.
  { intros Hlab. apply entries_of_complete.
    - rewrite Hperm. apply elem_of_select_day.
      destruct (upsert_stores fresh d s a c p n rows) as (r & Hr & Hk & Hf).
      exists r. injection Hk as Hd Ht. by rewrite Ht.
    - intros t' v' Hin Hl. rewrite Hperm in Hin.
      apply elem_of_select_day in Hin as (r' & Hr' & Hd' & <- & <-).
      apply elem_of_upsert in Hr' as [[_ Hf] | [Hr' Hk]]; [done|].
      exfalso. apply Hk. unfold key_of. f_equal; [done|]. by apply Hlab. }
  split; [done|]. intros Hs Hw Hwhole.
  rewrite <- label_of_ok by done. apply Hkey.
  intros r Hr Hd Hl. destruct (Hwhole r Hr Hd) as [Hok Hwr].
  rewrite !label_of_ok in Hl by done.
  destruct (time_slot r) as [h m sec u], s as [h' m' sec' u'].
  unfold time_ok, whole_minute in *. simpl in *.
  assert (label_time (slot_label h m) = label_time (slot_label h' m')) as Heq
    by (unfold strftime_HM in Hl; simpl in Hl; unfold slot_label; by rewrite Hl).
  rewrite !label_time_slot_label in Heq by lia.
  injection Heq as -> ->. f_equal; lia.
Qed.

Lemma upsert_then_list_witness :
  let d := mkDate 2024 3 1 in
  let s := mkTime 9 0 0 0 in
  let rows := [mkRow 1 d s (Some "old") None None None;
               mkRow 2 d (mkTime 9 15 0 0) (Some "Mail") (Some "Admin") None None] in
  let fetched :=
    [(mkTime 9 15 0 0, mkFields (Some "Mail") (Some "Admin") None None);
     (s, mkFields (Some "Write report") (Some "Deep Work") (Some "Finish draft")
                  (Some "focused"))] in
  unique_keys rows
  /\ fetched ≡ₚ select_day d (upsertEntry 3 d s (Some "Write report") (Some "Deep Work")
                                          (Some "Finish draft") (Some "focused") rows)
  /\ entries_of fetched !! "09:00"
     = Some (mkFields (Some "Write report") (Some "Deep Work") (Some "Finish draft")
                      (Some "focused")).
Proof.
  intros d s rows fetched.
  assert (fetched ≡ₚ select_day d (upsertEntry 3 d s (Some "Write report")
            (Some "Deep Work") (Some "Finish draft") (Some "focused") rows)) as Hp
    by apply perm_swap.
  assert (unique_keys rows) as Hu by (apply (bool_decide_unpack _); by vm_compute).
  split; [exact Hu|]. split; [exact Hp|].
  apply (upsert_then_list rows 3 d s (Some "Write report") (Some "Deep Work")
           (Some "Finish draft") (Some "focused") fetched Hu Hp); [done|done|].
  intros r Hr _.
  repeat (apply elem_of_cons in Hr as [->|Hr]; [done|]).
  by apply elem_of_nil in Hr.
Defined.

(** C2, the claim as it is written, fails: the table holds a row for 09:00
    and a row for 09:00:30 of the same date, both under the label [09:00];
    after the upsert for 09:00 the mapping built from the rows in table
    order, which is also their order by time of day, has the values of the
    other row under that label.  Submitting either row again leaves the
    table as it is, and no order of fetching serves both: the label has one
    value.  And an entry saved for [24:00] is listed under [00:00], not under
    its own label. *)
Lemma upsert_then_list_shadowed :
  let d := mkDate 2024 3 1 in
  let s := mkTime 9 0 0 0 in
  let rows := [mkRow 1 d s (Some "old") (Some "") (Some "") (Some "");
               mkRow 2 d (mkTime 9 0 30 0) (Some "other") (Some "") (Some "") (Some "")] in
  time_log (run iso_date_in iso_time_in (world_with (Some []))
              [PostSaveEntry (entry_form "2024-03-01" "09:00" "old" "" "" "");
               PostSaveEntry (entry_form "2024-03-01" "09:00:30" "other" "" "" "")])
  = Some rows
  /\ listEntriesForDate d
       (upsertEntry 3 d s (Some "Write report") (Some "Deep Work")
                    (Some "Finish draft") (Some "focused") rows)
     !! strftime_HM s
     = Some (mkFields (Some "other") (Some "") (Some "") (Some ""))
  /\ ~ (forall rows fresh d s a c p n,
          unique_keys rows ->
          listEntriesForDate d (upsertEntry fresh d s a c p n rows) !! strftime_HM s
          = Some (mkFields a c p n))
  /\ upsertEntry 3 d s (Some "old") (Some "") (Some "") (Some "") rows = rows
  /\ upsertEntry 3 d (mkTime 9 0 30 0) (Some "other") (Some "") (Some "") (Some "") rows
     = rows
  /\ (forall fetched, fetched ≡ₚ select_day d rows ->
        ~ (entries_of fetched !! strftime_HM s
           = Some (mkFields (Some "old") (Some "") (Some "") (Some ""))
           /\ entries_of fetched !! strftime_HM (mkTime 9 0 30 0)
              = Some (mkFields (Some "other") (Some "") (Some "") (Some ""))))
  /\ iso_time_in "24:00" = Some end_of_day
  /\ listEntriesForDate d (upsertEntry 1 d end_of_day (Some "late") (Some "") (Some "")
                                       (Some "") [])
     !! strftime_HM end_of_day = None
  /\ listEntriesForDate d (upsertEntry 1 d end_of_day (Some "late") (Some "") (Some "")
                                       (Some "") [])
     !! "00:00" = Some (mkFields (Some "late") (Some "") (Some "") (Some "")).
Proof.
  intros d s rows.
  assert (listEntriesForDate d
       (upsertEntry 3 d s (Some "Write report") (Some "Deep Work")
                    (Some "Finish draft") (Some "focused") rows)
     !! strftime_HM s
     = Some (mkFields (Some "other") (Some "") (Some "") (Some ""))) as Hget
    by (by vm_compute).
  split; [by vm_compute|]. split; [exact Hget|].
  split; [|split; [by vm_compute|split; [by vm_compute|split;
    [|split; [by vm_compute|split; by vm_compute]]]]].
  - intros Hclaim.
    specialize (Hclaim rows 3 d s (Some "Write report") (Some "Deep Work")
                  (Some "Finish draft") (Some "focused")).
    rewrite Hget in Hclaim. discriminate Hclaim.
    apply (bool_decide_unpack _). by vm_compute.
  - intros fetched _ [H1 H2].
    change (strftime_HM (mkTime 9 0 30 0)) with (strftime_HM s) in H2.
    rewrite H1 in H2. discriminate H2.
Qed.

(** ** The dashboard *)

Lemma insert_desc_perm x l : insert_desc x l ≡ₚ x :: l.
Proof.
  induction l as [|y l IH]; simpl; [done|].
  destruct (Qle_bool (snd y) (snd x)); [done|].
  rewrite IH. apply perm_swap.
Qed.

Lemma order_by_hours_desc_perm l : order_by_hours_desc l ≡ₚ l.
Proof.
  induction l as [|x l IH]; simpl; [done|].
  rewrite insert_desc_perm. by constructor.
Qed.

Lemma insert_desc_sorted x l :
  Sorted hours_ge l -> Sorted hours_ge (insert_desc x l).
Proof.
  induction l as [|y l IH]; intros Hs; simpl.
  - repeat constructor.
  - destruct (Qle_bool (snd y) (snd x)) eqn:E.
    + constructor; [done|]. constructor. by apply Qle_bool_iff.
    + apply Sorted_inv in Hs as [Hs Hhd].
      assert (hours_ge y x) as Hyx.
      { unfold hours_ge. apply Qlt_le_weak, Qnot_le_lt. intros Hle.
        apply Qle_bool_iff in Hle. congruence. }
      constructor; [by apply IH|].
      destruct l as [|z l]; simpl; [by constructor|].
      destruct (Qle_bool (snd z) (snd x)); constructor; [done|].
      by apply HdRel_inv in Hhd.
Qed.

Lemma order_by_hours_desc_sorted l : Sorted hours_ge (order_by_hours_desc l).
Proof.
  induction l as [|x l IH]; simpl; [constructor|]. by apply insert_desc_sorted.
Qed.

Lemma elem_of_kept_categories c (rows : list Row) :
  c ∈ omap kept_category rows <->
  c <> "" /\ exists r, r ∈ rows /\ category r = Some c.
Proof.
  rewrite list_elem_of_omap. unfold kept_category. split.
  - intros (r & Hr & Hk). destruct (category r) as [c'|] eqn:Hc; [|done].
    destruct (String.eqb c' "") eqn:E; [done|]. injection Hk as ->.
    apply String.eqb_neq in E. split; [done|]. by exists r.
  - intros (Hne & r & Hr & Hc). exists r. split; [done|]. rewrite Hc.
    apply String.eqb_neq in Hne. by rewrite Hne.
Qed.

Lemma count_rows_kept c (rows : list Row) :
  c <> "" ->
  count_rows c (omap kept_category rows)
  = Z.of_nat (length (rows_of_category c rows)).
Proof.
  intros Hne. unfold count_rows, rows_of_category. f_equal.
  induction rows as [|r rows IH]; [done|]. csimpl.
  unfold kept_category at 1. destruct (category r) as [c'|] eqn:Hc.
  - destruct (String.eqb c' "") eqn:E.
    + apply String.eqb_eq in E. subst c'.
      rewrite (filter_cons_False _ r) by congruence. done.
    + destruct (decide (c' = c)) as [->|Hcc].
      * rewrite !filter_cons_True by done. simpl. by rewrite IH.
      * rewrite !filter_cons_False by congruence. done.
  - rewrite (filter_cons_False _ r) by congruence. done.
Qed.

Lemma elem_of_computeCategoryTotals rows c h :
  (c, h) ∈ computeCategoryTotals rows <->
  c <> "" /\ (exists r, r ∈ rows /\ category r = Some c)
  /\ h = total_hours (Z.of_nat (length (rows_of_category c rows))).
Proof.
  unfold computeCategoryTotals. rewrite order_by_hours_desc_perm.
  unfold group_by_category. rewrite !map_as_fmap, <- list_fmap_compose.
  rewrite list_elem_of_fmap. split.
  - intros (c' & Heq & Hin). simpl in Heq. injection Heq as -> ->.
    apply elem_of_remove_dups, elem_of_kept_categories in Hin as [Hne Hex].
    by rewrite count_rows_kept.
  - intros (Hne & Hex & ->). exists c. simpl. rewrite count_rows_kept by done.
    split; [done|]. apply elem_of_remove_dups, elem_of_kept_categories. done.
Qed.

Lemma computeCategoryTotals_categories rows :
  map fst (computeCategoryTotals rows) ≡ₚ remove_dups (omap kept_category rows).
Proof.
  unfold computeCategoryTotals. rewrite order_by_hours_desc_perm.
  unfold group_by_category. rewrite !map_as_fmap, <- !list_fmap_compose.
  simpl. by rewrite list_fmap_id.
Qed.

(** C4.  The dashboard query yields one pair for each category that some
    stored row has, of whatever date, the null and the empty category left
    out; the hours of a category are the number of its rows times 0.25, so
    four rows make one hour, shown as [1.00]; and the pairs come in
    descending order of hours. *)
Theorem category_totals rows :
  let result := computeCategoryTotals rows in
  NoDup (map fst result)
  /\ (forall c h, (c, h) ∈ result <->
        c <> "" /\ (exists r, r ∈ rows /\ category r = Some c)
        /\ h = (inject_Z (Z.of_nat (length (rows_of_category c rows))) * 0.25)%Q)
  /\ (forall c h, (c, h) ∈ result -> length (rows_of_category c rows) = 4%nat ->
        (h == 1)%Q /\ format_2f h = "1.00")
  /\ Sorted hours_ge result.
Proof.
  intros result. split; [|split; [|split]].
  - unfold result. rewrite computeCategoryTotals_categories. apply NoDup_remove_dups.
  - intros c h. apply elem_of_computeCategoryTotals.
  - intros c h Hin Hfour.
    apply elem_of_computeCategoryTotals in Hin as (_ & _ & ->).
    rewrite Hfour. by split.
  - apply order_by_hours_desc_sorted.
Qed.

Lemma category_totals_witness :
  let d := mkDate 2024 3 1 in
  let row i h m c := mkRow i d (mkTime h m 0 0) (Some "x") c None (Some "") in
  let rows := [row 1 9 0 (Some "Deep Work"); row 2 9 15 (Some "Admin");
               row 3 9 30 (Some ""); row 4 9 45 None;
               row 5 10 0 (Some "Admin"); row 6 10 15 (Some "Play");
               mkRow 7 (mkDate 2024 3 2) (mkTime 8 0 0 0) None (Some "Admin") None None;
               row 8 11 0 (Some "Admin"); row 9 11 15 (Some "Play")] in
  computeCategoryTotals rows = [("Admin", 1.00%Q); ("Play", 0.50%Q); ("Deep Work", 0.25%Q)]
  /\ length (rows_of_category "Admin" rows) = 4%nat
  /\ format_2f 1.00 = "1.00".
Proof.
  intros d row rows.
  assert (computeCategoryTotals rows
          = [("Admin", 1.00%Q); ("Play", 0.50%Q); ("Deep Work", 0.25%Q)]) as Hres
    by (by vm_compute).
  assert (length (rows_of_category "Admin" rows) = 4%nat) as Hfour by (by vm_compute).
  split; [exact Hres|]. split; [exact Hfour|].
  destruct (category_totals rows) as (_ & _ & H4 & _).
  apply (H4 "Admin" 1.00%Q); [|exact Hfour].
  rewrite Hres. by left.
Defined.

(** ** The slot labels *)

Section SlotLabels.

Context {py : Python}.

(** C5.  The labels [index] generates are the 96 labels from [00:00] to
    [23:45]: the two-digit hour, a colon and the two-digit minute, for the
    hours 0 to 23 and the minutes 0, 15, 30 and 45; they ascend strictly, so
    none occurs twice; and a page that [index] renders is rendered with this
    list, whatever the store holds. *)
Theorem slot_labels_of_a_day :
  time_slots = labels_of_a_day
  /\ length time_slots = 96%nat
  /\ (forall s, s ∈ time_slots <->
        exists h m, 0 <= h < 24 /\ m ∈ [0; 15; 30; 45]
                    /\ s = fmt_0d 2 h +:+ ":" +:+ fmt_0d 2 m)
  /\ StronglySorted string_lt time_slots
  /\ NoDup time_slots
  /\ (forall args w body w',
        index args w = (Ok (Page 200 body), w') ->
        exists ctx, body = render_template_string ctx
                    /\ c_time_slots ctx = time_slots).
Proof.
  split; [reflexivity|]. split; [reflexivity|]. split; [|split; [|split]].
  - intros s. unfold time_slots.
    rewrite list_elem_of_In, in_flat_map. split.
    + intros (h & Hh & Hs). apply in_map_iff in Hs as (m & <- & Hm).
      exists h, m. apply list_elem_of_In, elem_of_range in Hh.
      apply list_elem_of_In in Hm. split; [lia|]. by split.
    + intros (h & m & Hh & Hm & ->). exists h. split.
      * apply list_elem_of_In, elem_of_range. lia.
      * apply in_map_iff. exists m. split; [done|]. by apply list_elem_of_In.
  - apply (bool_decide_unpack _). by vm_compute.
  - apply (bool_decide_unpack _). by vm_compute.
  - intros args [td re fl tl se oc co] body w' H. revert H. run_handler.
    all: try discriminate.
    all: intros [= <- <-]; eexists; split; [reflexivity|reflexivity].
Qed.

End SlotLabels.

(** ** The date parameter of [GET /] *)

Section DateParameter.

Context {py : Python}.

(** C6.  A [date] parameter that does not parse as an ISO date is answered
    as the request for today's date is, and as the request without the
    parameter: same response, same effect on the world; when the store
    answers, that response is the page, with status 200. *)
Theorem unparsable_date_falls_back_to_today args v w :
  date_ok (today w) = true ->
  args !! "date" = Some v ->
  fromisoformat v = None ->
  serve (index args) w = serve (index (<["date" := isoformat (today w)]> args)) w
  /\ serve (index args) w = serve (index (delete "date" args)) w
  /\ (reachable w = true -> faults w = [] -> is_Some (time_log w) ->
      is_Some (date_add_days (today w) (-1)) ->
      is_Some (date_add_days (today w) 1) ->
      exists body, serve (index args) w = (Page 200 body, w)).
Proof.
  intros Hok Ha Hv.
  assert (forall args', default (today w) (fromisoformat
            (default (isoformat (today w)) (args' !! "date"))) = today w ->
          index args' w = index args w) as Hsame.
  { intros args' H'. unfold index, bind, date_today. cbv beta iota.
    rewrite H', Ha. cbn [from_option Datatypes.id]. by rewrite Hv. }
  split; [|split].
  - unfold serve. rewrite (Hsame (<["date" := isoformat (today w)]> args)); [done|].
    rewrite lookup_insert_eq. cbn [from_option Datatypes.id].
    by rewrite fromisoformat_isoformat.
  - unfold serve. rewrite (Hsame (delete "date" args)); [done|].
    rewrite lookup_delete_eq. cbn [from_option Datatypes.id].
    by rewrite fromisoformat_isoformat.
  - intros Hr Hf [rows Ht] [pd Hp] [nd Hn].
    destruct w as [td re fl tl se oc co]. simpl in *. subst.
    unfold serve, index, bind, date_today. cbv beta iota.
    cbn [today]. rewrite Ha. cbn [from_option Datatypes.id]. rewrite Hv.
    cbn [from_option Datatypes.id]. rewrite Hp, Hn.
    eexists. reflexivity.
Qed.

End DateParameter.

Lemma unparsable_date_falls_back_to_today_witness :
  let w := world_with (Some [mkRow 1 (mkDate 2024 3 1) (mkTime 9 0 0 0)
                               (Some "Write") (Some "Deep Work") (Some "") (Some "")]) in
  let args : gmap string string := {["date" := "not-a-date"]} in
  fromisoformat "not-a-date" = None
  /\ serve (index args) w = serve (index {["date" := "2024-03-01"]}) w.
Proof.
  intros w args.
  assert (fromisoformat "not-a-date" = None) as Hv by reflexivity.
  split; [exact Hv|].
  destruct (unparsable_date_falls_back_to_today args "not-a-date" w
              eq_refl eq_refl Hv) as [H _].
  rewrite H. f_equal.
Defined.

(** ** Connections *)

Section ConnectionFacts.

Variable date_in : string -> option Date.
Variable time_in : string -> option Time.
Context {py : Python}.

(** A view that returns has closed the connection it opened. *)
Lemma index_returns_closed args w r w' :
  index args w = (Ok r, w') -> open_conns w' = open_conns w.
Proof.
  destruct w as [td re fl tl se oc co]. run_handler; by intros [= <- <-].
Qed.

Lemma save_entry_returns_closed form w r w' :
  save_entry date_in time_in form w = (Ok r, w') -> open_conns w' = open_conns w.
Proof.
  destruct w as [td re fl tl se oc co]. run_handler; by intros [= <- <-].
Qed.

(** A statement that fails inside [index] leaves the connection open. *)
Lemma index_store_error_leaks args w e rest :
  reachable w = true -> faults w = Some e :: rest ->
  exists w', index args w = (Raise e, w') /\ open_conns w' = S (open_conns w).
Proof.
  destruct w as [td re fl tl se oc co]. simpl. intros -> ->.
  run_handler; eexists; split; reflexivity.
Qed.

(** So does one that fails inside [save_entry], the commit included. *)
Lemma save_entry_store_error_leaks form w vd vs va vc vp vn :
  form = entry_form vd vs va vc vp vn ->
  reachable w = true ->
  (exists e rest, faults w = Some e :: rest)
  \/ (exists e rest, faults w = None :: Some e :: rest /\ is_Some (time_log w)
                     /\ is_Some (date_in vd) /\ is_Some (time_in vs))
  \/ time_log w = None \/ date_in vd = None \/ time_in vs = None ->
  exists e w', save_entry date_in time_in form w = (Raise e, w')
               /\ open_conns w' = S (open_conns w).
Proof.
  destruct w as [td re fl tl se oc co]. simpl. intros -> ->.
  unfold save_entry, form_get, entry_form. simplify_map_eq.
  intros [(e & rest & ->) | [(e & rest & -> & [rows ->] & [d Hd] & [t Ht])
                             | [-> | [Hd | Ht]]]].
  - run_handler; eexists _, _; split; reflexivity.
  - rewrite ?Hd, ?Ht. run_handler; eexists _, _; split; reflexivity.
  - run_handler; eexists _, _; split; reflexivity.
  - run_handler; eexists _, _; split; reflexivity.
  - run_handler; eexists _, _; split; reflexivity.
Qed.

End ConnectionFacts.

(** C7.  The claim fails on the code: a view closes its connection on the
    paths that return, and nowhere else.  Here [POST /save_entry] carries a
    time of day the store refuses: [execute] raises, the exception leaves
    the view, Flask answers 500, and the connection opened for the request
    is still open.  The same happens to [GET /] when the table is missing,
    and to [POST /save_entry] when the commit fails. *)
Theorem connection_left_open_when_the_store_fails :
  let form := entry_form "2024-03-01" "not-a-time" "Write" "Deep Work" "" "" in
  let good := entry_form "2024-03-01" "09:00" "Write" "Deep Work" "" "" in
  let w := world_with (Some []) in
  let w_commit := mkWorld (mkDate 2024 3 1) true [None; Some OperationalError]
                          (Some []) 1 0 [] in
  iso_time_in "not-a-time" = None
  /\ open_conns w = 0%nat
  /\ fst (serve (save_entry iso_date_in iso_time_in form) w)
     = Page 500 "Internal Server Error"
  /\ open_conns (snd (serve (save_entry iso_date_in iso_time_in form) w)) = 1%nat
  /\ fst (serve (index ∅) (world_with None)) = Page 500 "Internal Server Error"
  /\ open_conns (snd (serve (index ∅) (world_with None))) = 1%nat
  /\ fst (serve (save_entry iso_date_in iso_time_in good) w_commit)
     = Page 500 "Internal Server Error"
  /\ open_conns (snd (serve (save_entry iso_date_in iso_time_in good) w_commit)) = 1%nat
  /\ open_conns (snd (serve (save_entry iso_date_in iso_time_in good) w)) = 0%nat.
Proof. repeat split; by vm_compute. Qed.

(** ** Schema initialization *)

(** C9.  Both versions of [initialize_database] return to their caller,
    whatever the state of the store and whichever of its calls fail, and
    leave no connection open.  When the connection cannot be made, each
    prints its lines on the failure and returns without a round trip to the
    store.  When the store answers, a table that exists is as it was, a
    missing table is created empty, and each prints its lines of success.
    When a call fails during schema creation, each prints the error and
    returns, the table as it was; the script of [init_db.py] prints the
    lines of a connection failure when that error is an
    [OperationalError], and closes the connection after its handler has
    printed. *)
Theorem initialize_database_returns w :
  (exists w', initialize_database w = (Ok tt, w'))
  /\ (exists w', init_db_initialize_database w = (Ok tt, w'))
  /\ open_conns (snd (initialize_database w)) = open_conns w
  /\ open_conns (snd (init_db_initialize_database w)) = open_conns w
  /\ (reachable w = false ->
      snd (initialize_database w)
      = mkWorld (today w) false (faults w) (time_log w) (serial w) (open_conns w)
          (console w ++
           ["Error: Could not connect to PostgreSQL database. Please check your .env configuration and ensure the database is running.";
            "Details: OperationalError";
            "CRITICAL: Could not connect to database for initialization. Aborting."])
      /\ time_log (snd (init_db_initialize_database w)) = time_log w
      /\ faults (snd (init_db_initialize_database w)) = faults w
      /\ snd (init_db_initialize_database w)
         = mkWorld (today w) false (faults w) (time_log w) (serial w) (open_conns w)
             (console w ++
              ["Connecting to the database...";
               "ERROR: Could not connect to the database.Please check your configuration.";
               "Details: OperationalError"]))
  /\ (reachable w = true -> faults w = [] -> is_Some (time_log w) ->
      time_log (snd (initialize_database w)) = time_log w
      /\ time_log (snd (init_db_initialize_database w)) = time_log w)
  /\ (reachable w = true -> faults w = [] -> time_log w = None ->
      time_log (snd (initialize_database w)) = Some []
      /\ time_log (snd (init_db_initialize_database w)) = Some [])
  /\ (reachable w = true -> faults w = [] ->
      console (snd (initialize_database w))
      = console w ++
        ["Initializing database: Checking for 'time_log' table...";
         "Database initialized successfully. Table 'time_log' is ready."]
      /\ console (snd (init_db_initialize_database w))
         = console w ++
           ["Connecting to the database...";
            "Connection successful.Creating table 'time_log' if it doesn't exist...";
            "Table 'time_log' is ready.";
            "Database connection closed."])
  /\ (forall e rest, reachable w = true ->
      faults w = Some e :: rest \/ faults w = None :: Some e :: rest ->
      time_log (snd (initialize_database w)) = time_log w
      /\ last (console (snd (initialize_database w)))
         = Some ("An error occurred during database initialization: " +:+ exn_text e)
      /\ time_log (snd (init_db_initialize_database w)) = time_log w
      /\ console (snd (initialize_database w))
         = console w ++
           ["Initializing database: Checking for 'time_log' table...";
            "An error occurred during database initialization: " +:+ exn_text e]
      /\ (e = OperationalError ->
          console (snd (init_db_initialize_database w))
          = console w ++
            ["Connecting to the database...";
             "Connection successful.Creating table 'time_log' if it doesn't exist...";
             "ERROR: Could not connect to the database.Please check your configuration.";
             "Details: OperationalError";
             "Database connection closed."])
      /\ (e <> OperationalError ->
          console (snd (init_db_initialize_database w))
          = console w ++
            ["Connecting to the database...";
             "Connection successful.Creating table 'time_log' if it doesn't exist...";
             "An unexpected error occurred: " +:+ exn_text e;
             "Database connection closed."])).
Proof.
  destruct w as [td re fl tl se oc co]. cbn [reachable faults time_log open_conns
    today serial console].
  split; [|split; [|split; [|split; [|split; [|split; [|split; [|split]]]]]]].
  - run_handler; eexists; reflexivity.
  - run_handler; eexists; reflexivity.
  - run_handler; reflexivity.
  - run_handler; reflexivity.
  - intros ->. run_handler. cbn [faults]. rewrite <- !app_assoc. by repeat split.
  - intros -> -> [rows ->]. by run_handler.
  - intros -> -> ->. by run_handler.
  - intros -> ->. run_handler; cbn [console]; rewrite <- !app_assoc; by split.
  - intros e rest -> Hfl.
    assert (e = OperationalError \/ e <> OperationalError) as He
      by (destruct e; auto; right; discriminate).
    destruct Hfl as [-> | ->], He as [-> | He]; run_handler; cbn [console];
      rewrite ?last_snoc, <- ?app_assoc; repeat split; try done;
      destruct e; done.
Qed.

Lemma initialize_database_returns_witness :
  let w := mkWorld (mkDate 2024 3 1) true [Some ProgrammingError]
                   (Some [mkRow 1 (mkDate 2024 3 1) (mkTime 9 0 0 0)
                            (Some "Write") None None None]) 2 0 [] in
  reachable w = true
  /\ faults w = [Some ProgrammingError]
  /\ time_log (snd (initialize_database w)) = time_log w
  /\ last (console (snd (initialize_database w)))
     = Some "An error occurred during database initialization: ProgrammingError"
  /\ console (snd (init_db_initialize_database w))
     = ["Connecting to the database...";
        "Connection successful.Creating table 'time_log' if it doesn't exist...";
        "An unexpected error occurred: ProgrammingError";
        "Database connection closed."].
Proof.
  intros w. split; [reflexivity|]. split; [reflexivity|].
  destruct (initialize_database_returns w) as (_ & _ & _ & _ & _ & _ & _ & _ & H).
  destruct (H ProgrammingError [] eq_refl (or_introl eq_refl))
    as (H1 & H2 & _ & _ & _ & H3).
  split; [exact H1 | split; [exact H2 | apply H3; discriminate]].
Defined.

(** ** Incomplete forms *)



(** ** Escaping *)

Lemma count_meta_app a b : count_meta (a +:+ b) = (count_meta a + count_meta b)%nat.
Proof. induction a as [|c a IH]; simpl; [done|]. rewrite IH. lia. Qed.

Lemma escape_app_char c v : escape (String c v) = escape_char c +:+ escape v.
Proof. reflexivity. Qed.

Lemma count_meta_escape v : count_meta (escape v) = 0%nat.
Proof.
  induction v as [|c v IH]; [done|].
  rewrite escape_app_char, count_meta_app, IH. unfold escape_char.
  destruct (Ascii.eqb c "&") eqn:E1; [done|].
  destruct (Ascii.eqb c "<") eqn:E2; [done|].
  destruct (Ascii.eqb c ">") eqn:E3; [done|].
  destruct (Ascii.eqb c "'") eqn:E4; [done|].
  destruct (Ascii.eqb c dquote) eqn:E5; [done|].
  simpl. unfold is_meta. by rewrite E2, E3, E4, E5.
Qed.

Lemma unescape_escape v : unescape (escape v) = v.
Proof.
  induction v as [|c v IH]; [done|].
  rewrite escape_app_char. unfold escape_char.
  destruct (Ascii.eqb c "&") eqn:E1.
  { apply Ascii.eqb_eq in E1. subst c.
    change (String "&" (unescape (escape v)) = String "&" v). by rewrite IH. }
  destruct (Ascii.eqb c "<") eqn:E2.
  { apply Ascii.eqb_eq in E2. subst c.
    change (String "<" (unescape (escape v)) = String "<" v). by rewrite IH. }
  destruct (Ascii.eqb c ">") eqn:E3.
  { apply Ascii.eqb_eq in E3. subst c.
    change (String ">" (unescape (escape v)) = String ">" v). by rewrite IH. }
  destruct (Ascii.eqb c "'") eqn:E4.
  { apply Ascii.eqb_eq in E4. subst c.
    change (String "'" (unescape (escape v)) = String "'" v). by rewrite IH. }
  destruct (Ascii.eqb c dquote) eqn:E5.
  { apply Ascii.eqb_eq in E5. subst c.
    change (String dquote (unescape (escape v)) = String dquote v). by rewrite IH. }
  apply Ascii.eqb_neq in E1.
  change (String c EmptyString +:+ escape v) with (String c (escape v)).
  assert (unescape (String c (escape v)) = String c (unescape (escape v))) as ->;
    [|by rewrite IH].
  destruct c as [[] [] [] [] [] [] [] []]; try reflexivity.
  by contradiction E1.
Qed.

Lemma count_meta_join_escaped (segs : list Seg) :
  count_meta (join (map emit segs))
  = count_meta (join (map emit (filter (fun g => is_lit g = true) segs))).
Proof.
  induction segs as [|[s|v] segs IH]; [done| |].
  - rewrite filter_cons_True by done. simpl. by rewrite !count_meta_app, IH.
  - rewrite filter_cons_False by done. simpl.
    by rewrite count_meta_app, count_meta_escape, IH.
Qed.

Lemma elem_of_flat_map_2 {A B} (f : A -> list B) (l : list A) x y :
  x ∈ l -> y ∈ f x -> y ∈ flat_map f l.
Proof.
  intros Hx Hy. apply list_elem_of_In, in_flat_map. exists x.
  split; by apply list_elem_of_In.
Qed.

Lemma template_lits ctx s : Lit s ∈ template ctx -> s ∈ template_literals.
Proof.
  unfold template. rewrite !elem_of_app. intros [H | [H | [H | [H | H]]]].
  - apply list_elem_of_singleton in H as [= ->]. unfold template_literals. listed.
  - unfold dashboard_block in H. destruct (c_dashboard_data ctx) as [|i l]; simpl in H.
    + apply list_elem_of_singleton in H as [= ->]. unfold template_literals. listed.
    + apply elem_of_cons in H as [[= ->] | H]; [unfold template_literals; listed|].
      change (Lit s ∈ flat_map dashboard_item (i :: l) ++ [Lit lit_dash_list_close]) in H.
      apply elem_of_app in H as [H | H].
      * apply list_elem_of_In, in_flat_map in H as (it & _ & H).
        simpl in H. unfold template_literals.
        destruct H as [[= <-] | [[=] | [[= <-] | [[=] | [[= <-] | []]]]]]; listed.
      * apply list_elem_of_singleton in H as [= ->]. unfold template_literals. listed.
  - apply list_elem_of_In in H. simpl in H. unfold template_literals.
    repeat (destruct H as [H | H]; [try discriminate H; injection H as <-; listed|]).
    destruct H.
  - apply list_elem_of_In, in_flat_map in H as (slot & _ & H).
    unfold slot_block in H. unfold template_literals.
    destruct (c_entries ctx !! slot); simpl in H;
      repeat (destruct H as [H | H]; [try discriminate H; injection H as <-; listed|]);
      destruct H.
  - apply list_elem_of_singleton in H as [= ->]. unfold template_literals. listed.
Qed.

Section Escaping.

Context {py : Python}.

(** C8.  The page is the literal text of the template interleaved with the
    values of its expressions, and every expression value is written
    escaped.  The text of a stored entry and the category names of the
    dashboard reach the page as expression values only; an escaped value has
    none of the characters [<], [>], ['] and the double quote, and reading
    its character references back gives the value; so every such character
    of the page belongs to the template's own text. *)
Theorem page_escapes_user_text ctx :
  (forall s, Lit s ∈ template ctx -> s ∈ template_literals)
  /\ (forall item, item ∈ c_dashboard_data ctx -> Expr (fst item) ∈ template ctx)
  /\ (forall slot e, slot ∈ c_time_slots ctx -> c_entries ctx !! slot = Some e ->
        Expr (py_or (f_activity e) "No activity logged") ∈ template ctx
        /\ Expr (py_or (f_category e) "Uncategorized") ∈ template ctx
        /\ Expr (py_str (f_activity e)) ∈ template ctx
        /\ Expr (py_str (f_category e)) ∈ template ctx
        /\ Expr (py_str (f_priority e)) ∈ template ctx
        /\ Expr (py_str (f_notes e)) ∈ template ctx)
  /\ (forall v, emit (Expr v) = escape v /\ count_meta (escape v) = 0%nat
                /\ unescape (escape v) = v)
  /\ render_template_string ctx = join (map emit (template ctx))
  /\ count_meta (render_template_string ctx)
     = count_meta (join (map emit (filter (fun g => is_lit g = true) (template ctx))))
  /\ (forall args w body w',
        index args w = (Ok (Page 200 body), w') ->
        exists rows d ctx',
          time_log w = Some rows
          /\ c_entries ctx' = listEntriesForDate d rows
          /\ c_dashboard_data ctx' = computeCategoryTotals rows
          /\ c_time_slots ctx' = time_slots
          /\ body = render_template_string ctx').
Proof.
  split; [apply template_lits|]. split; [|split; [|split; [|split; [|split]]]].
  - intros item Hin. unfold template. rewrite !elem_of_app. right. left.
    unfold dashboard_block. destruct (c_dashboard_data ctx) as [|i l] eqn:E;
      [by apply elem_of_nil in Hin|].
    rewrite !elem_of_app. right. left.
    apply (elem_of_flat_map_2 _ _ item); [done|]. unfold dashboard_item. listed.
  - intros slot e Hs He.
    assert (forall g, g ∈ slot_block ctx slot -> g ∈ template ctx) as Hsub.
    { intros g Hg. unfold template. rewrite !elem_of_app. right. right. right. left.
      by apply (elem_of_flat_map_2 _ _ slot). }
    repeat split; apply Hsub; unfold slot_block; rewrite He; listed.
  - intros v. split; [done|]. split; [apply count_meta_escape | apply unescape_escape].
  - done.
  - apply count_meta_join_escaped.
  - intros args [td re fl tl se oc co] body w' H. revert H. run_handler.
    all: try discriminate.
    all: intros [= <- <-]; eexists _, _, (mkContext _ _ _ _ _ _ _ _).
    all: split; [reflexivity|]; split; [reflexivity|]; split; [reflexivity|]; split; reflexivity.
Qed.

Example escape_sample :
  escape "<b>x</b> & 'y'" = "&lt;b&gt;x&lt;/b&gt; &amp; &#39;y&#39;".
Proof. reflexivity. Qed.

End Escaping.

(** * Further properties *)

(** ** The routes when the store is down *)

Lemma complete_form_values form :
  complete_form form ->
  exists vd vs va vc vp vn,
    form !! "entry_date" = Some vd /\ form !! "time_slot" = Some vs
    /\ form !! "activity" = Some va /\ form !! "category" = Some vc
    /\ form !! "priority" = Some vp /\ form !! "notes" = Some vn.
Proof.
  intros H.
  destruct (H "entry_date" ltac:(unfold form_keys; listed)) as [vd Hd].
  destruct (H "time_slot" ltac:(unfold form_keys; listed)) as [vs Hs].
  destruct (H "activity" ltac:(unfold form_keys; listed)) as [va Ha].
  destruct (H "category" ltac:(unfold form_keys; listed)) as [vc Hc].
  destruct (H "priority" ltac:(unfold form_keys; listed)) as [vp Hp].
  destruct (H "notes" ltac:(unfold form_keys; listed)) as [vn Hn].
  by exists vd, vs, va, vc, vp, vn.
Qed.

Section StoreDown.

Context {py : Python}.

(** X1.  When the connection cannot be made, [GET /], whatever its
    parameters, answers 500 with the connection error page, and
    [POST /save_entry] with a complete form answers 500 with its own short
    page; neither makes a round trip to the store, opens a connection or
    touches the table or the sequence: the world differs by the two lines
    [get_db_connection] prints. *)
Theorem store_down_is_a_500 date_in time_in args form w :
  reachable w = false ->
  complete_form form ->
  let w' := mkWorld (today w) false (faults w) (time_log w) (serial w)
                    (open_conns w) (console w ++ connection_failure_lines) in
  serve (index args) w = (Page 500 connection_error_page, w')
  /\ serve (save_entry date_in time_in form) w
     = (Page 500 "<h1>Database Connection Error</h1>", w').
Proof.
  intros Hr Hform w'. subst w'. destruct w as [td re fl tl se oc co].
  simpl in Hr. subst re.
  destruct (complete_form_values form Hform)
    as (vd & vs & va & vc & vp & vn & H1 & H2 & H3 & H4 & H5 & H6).
  unfold connection_failure_lines. cbn [today faults time_log serial open_conns console].
  split.
  - unfold serve. run_handler. by rewrite <- app_assoc.
  - unfold serve, save_entry, bind, form_get. rewrite H1, H2, H3, H4, H5, H6.
    run_handler. by rewrite <- app_assoc.
Qed.

End StoreDown.

Lemma store_down_is_a_500_witness :
  let w := mkWorld (mkDate 2024 3 1) false [] (Some []) 1 0 [] in
  let form := entry_form "2024-03-01" "09:00" "Write" "Deep Work" "" "" in
  reachable w = false /\ complete_form form
  /\ fst (serve (index {["date" := "2024-02-30"]}) w) = Page 500 connection_error_page
  /\ fst (serve (save_entry iso_date_in iso_time_in form) w)
     = Page 500 "<h1>Database Connection Error</h1>".
Proof.
  intros w form.
  assert (complete_form form) as Hf.
  { intros k Hk. unfold form_keys in Hk.
    repeat (apply elem_of_cons in Hk as [->|Hk]; [by eexists|]).
    by apply elem_of_nil in Hk. }
  split; [reflexivity|]. split; [exact Hf|].
  destruct (store_down_is_a_500 iso_date_in iso_time_in {["date" := "2024-02-30"]}
              form w eq_refl Hf) as [H1 H2].
  rewrite H1, H2. by split.
Defined.

(** ** What the routes leave alone *)

Section ReadOnly.

Context {py : Python}.

(** X2.  [GET /] only reads: whatever the parameters, the state of the
    store and the calls that fail, the committed table and the sequence of
    [id] are after the request what they were before, and nothing is
    printed unless the connection attempt failed. *)
Theorem index_is_read_only args w :
  time_log (snd (serve (index args) w)) = time_log w
  /\ serial (snd (serve (index args) w)) = serial w
  /\ today (snd (serve (index args) w)) = today w
  /\ (reachable w = true -> console (snd (serve (index args) w)) = console w).
Proof.
  destruct w as [td re fl tl se oc co]. unfold serve.
  split; [|split; [|split]].
  - run_handler; reflexivity.
  - run_handler; reflexivity.
  - run_handler; reflexivity.
  - cbn [reachable]. intros ->. run_handler; reflexivity.
Qed.

End ReadOnly.

(** X3.  [POST /save_entry] is all or nothing.  Either it answers with the
    redirect to the day view of the submitted [entry_date], and then the
    store accepted the date and the time, the committed table is the old one
    after one upsert of the submitted values, and the connection is closed;
    or it answers 400 or 500 and the committed table is what it was. *)
Theorem save_entry_all_or_nothing date_in time_in form w :
  match fst (serve (save_entry date_in time_in form) w) with
  | RedirectToIndex target =>
      exists vs va vc vp vn d t rows,
        form !! "entry_date" = Some target /\ form !! "time_slot" = Some vs
        /\ form !! "activity" = Some va /\ form !! "category" = Some vc
        /\ form !! "priority" = Some vp /\ form !! "notes" = Some vn
        /\ date_in target = Some d /\ time_in vs = Some t
        /\ time_log w = Some rows
        /\ time_log (snd (serve (save_entry date_in time_in form) w))
           = Some (upsertEntry (serial w) d t (Some va) (Some vc) (Some vp)
                               (Some vn) rows)
        /\ open_conns (snd (serve (save_entry date_in time_in form) w))
           = open_conns w
  | Page status _ =>
      (status = 400 \/ status = 500)
      /\ time_log (snd (serve (save_entry date_in time_in form) w)) = time_log w
  end.
Proof.
  destruct w as [td re fl tl se oc co]. unfold serve.
  run_handler; cbn [serial]; try (split; [by (left + right) | reflexivity]).
  all: by eexists _, _, _, _, _, _, _, _.
Qed.

(** ** The two initializers *)

(** X4.  The startup function of [app.py] and the standalone script of
    [init_db.py] have the same effect on the store, whatever its state and
    whichever calls fail: same table, same round trips used, same sequence,
    same connections left open (none); they differ in what they print.  A
    table that exists is never altered by either, not even when calls
    fail. *)
Theorem initializers_agree w :
  let a := snd (initialize_database w) in
  let b := snd (init_db_initialize_database w) in
  time_log a = time_log b
  /\ faults a = faults b
  /\ serial a = serial b
  /\ open_conns a = open_conns b
  /\ (forall rows, time_log w = Some rows -> time_log a = Some rows).
Proof.
  destruct w as [td re fl tl se oc co]. cbn zeta.
  split; [|split; [|split; [|split]]].
  - run_handler; reflexivity.
  - run_handler; cbn [faults]; reflexivity.
  - run_handler; cbn [serial]; reflexivity.
  - run_handler; reflexivity.
  - cbn [time_log]. intros rows ->. run_handler; reflexivity.
Qed.

(** ** Text fields are never NULL *)

Lemma no_null_upsert fresh d t va vc vp vn rows :
  Forall no_null rows ->
  Forall no_null (upsertEntry fresh d t (Some va) (Some vc) (Some vp) (Some vn) rows).
Proof.
  intros H. unfold upsertEntry. destruct (existsb (has_key d t) rows).
  - rewrite map_as_fmap. apply Forall_fmap. eapply Forall_impl; [exact H|].
    intros r Hr. simpl. destruct (has_key d t r); [|done].
    unfold no_null. simpl. by repeat split.
  - apply Forall_app. split; [done|]. apply Forall_singleton.
    unfold no_null. simpl. by repeat split.
Qed.

Section NoNulls.

Context {py : Python}.

Lemma step_no_nulls date_in time_in w rq :
  no_nulls (time_log w) -> no_nulls (time_log (step date_in time_in w rq)).
Proof.
  intros Hok. destruct w as [td re fl tl se oc co]. simpl in Hok.
  destruct rq as [|args|form]; unfold step, serve.
  - run_handler; cbn [no_nulls]; auto. all: destruct tl; simpl; auto.
  - run_handler; cbn [no_nulls]; auto.
  - run_handler; cbn [no_nulls]; auto. all: by apply no_null_upsert.
Qed.

(** X5.  The handlers never store NULL: if no text field of the table is
    NULL before, none is after any sequence of requests, since [save_entry]
    writes the form's strings, the empty string included, into all four
    fields. *)
Theorem handlers_never_store_null date_in time_in w rqs :
  no_nulls (time_log w) ->
  no_nulls (time_log (run date_in time_in w rqs)).
Proof.
  revert w. induction rqs as [|rq rqs IH]; intros w Hok; [done|].
  simpl. apply IH. by apply step_no_nulls.
Qed.

End NoNulls.

Lemma handlers_never_store_null_witness :
  let w := world_with None in
  let rqs := [Startup;
              PostSaveEntry (entry_form "2024-03-01" "09:00" "" "" "" "");
              PostSaveEntry (entry_form "2024-03-01" "09:15" "Mail" "Admin" "" "")] in
  no_nulls (time_log w)
  /\ time_log (run iso_date_in iso_time_in w rqs)
     = Some [mkRow 1 (mkDate 2024 3 1) (mkTime 9 0 0 0) (Some "") (Some "") (Some "") (Some "");
             mkRow 2 (mkDate 2024 3 1) (mkTime 9 15 0 0) (Some "Mail") (Some "Admin")
                   (Some "") (Some "")]
  /\ no_nulls (time_log (run iso_date_in iso_time_in w rqs)).
Proof.
  intros w rqs. split; [exact I|]. split; [by vm_compute|].
  apply (handlers_never_store_null iso_date_in iso_time_in w rqs). exact I.
Defined.

(** ** How upserts compose *)

Lemma existsb_has_key_after fresh d t a c p n rows :
  existsb (has_key d t) (upsertEntry fresh d t a c p n rows) = true.
Proof.
  apply existsb_has_key.
  destruct (upsert_stores fresh d t a c p n rows) as (r & Hr & Hk & _).
  rewrite <- Hk, map_as_fmap. by apply list_elem_of_fmap_2.
Qed.

Lemma existsb_has_key_other fresh d t a c p n d' t' rows :
  (d', t') <> (d, t) ->
  existsb (has_key d' t') (upsertEntry fresh d t a c p n rows)
  = existsb (has_key d' t') rows.
Proof.
  intros Hne. apply eq_true_iff_eq. rewrite !existsb_has_key.
  unfold upsertEntry. destruct (existsb (has_key d t) rows) eqn:E.
  - pose proof (upsert_keys_present fresh d t a c p n rows E) as Hk.
    unfold upsertEntry in Hk. rewrite E in Hk. by rewrite Hk.
  - rewrite map_app, elem_of_app. simpl. rewrite list_elem_of_singleton.
    split; [intros [H|H]; [done | unfold key_of in H; simpl in H; congruence] | by left].
Qed.

Lemma has_key_do_update d t a c p n r :
  has_key d t (do_update a c p n r) = has_key d t r.
Proof. reflexivity. Qed.

Lemma update_rows_twice d t a c p n a2 c2 p2 n2 (rows : list Row) :
  map (fun r => if has_key d t r then do_update a2 c2 p2 n2 r else r)
      (map (fun r => if has_key d t r then do_update a c p n r else r) rows)
  = map (fun r => if has_key d t r then do_update a2 c2 p2 n2 r else r) rows.
Proof.
  rewrite map_map. apply map_ext. intros r.
  destruct (has_key d t r) eqn:E; [|by rewrite E].
  assert (has_key d t (do_update a c p n r) = true) as -> by exact E. done.
Qed.

Lemma update_rows_absent d t a c p n (rows : list Row) :
  existsb (has_key d t) rows = false ->
  map (fun r => if has_key d t r then do_update a c p n r else r) rows = rows.
Proof.
  intros H. rewrite <- (map_id rows) at 2. apply map_ext_in. intros r Hr.
  destruct (has_key d t r) eqn:E; [|done].
  assert (existsb (has_key d t) rows = true); [|congruence].
  apply existsb_exists. by exists r.
Qed.

(** X6.  A second upsert on a key overrides the first as if the first had
    carried its values: the table after both is the table after one upsert
    of the second values, given the [id] the first drew.  So submitting the
    same form again changes nothing, and the number of rows grows by one at
    most, by none when the key was there. *)
Theorem upsert_last_write_wins fresh fresh2 d t a c p n a2 c2 p2 n2 rows :
  upsertEntry fresh2 d t a2 c2 p2 n2 (upsertEntry fresh d t a c p n rows)
  = upsertEntry fresh d t a2 c2 p2 n2 rows
  /\ upsertEntry fresh2 d t a c p n (upsertEntry fresh d t a c p n rows)
     = upsertEntry fresh d t a c p n rows
  /\ length (upsertEntry fresh d t a c p n rows)
     = (if existsb (has_key d t) rows then length rows else S (length rows)).
Proof.
  assert (forall a2 c2 p2 n2,
    upsertEntry fresh2 d t a2 c2 p2 n2 (upsertEntry fresh d t a c p n rows)
    = upsertEntry fresh d t a2 c2 p2 n2 rows) as Hgen.
  { intros a' c' p' n'. unfold upsertEntry at 1.
    rewrite existsb_has_key_after. unfold upsertEntry.
    destruct (existsb (has_key d t) rows) eqn:E.
    - apply update_rows_twice.
    - rewrite map_app, update_rows_absent by done. simpl.
      unfold has_key at 1. simpl. by rewrite bool_decide_eq_true_2. }
  split; [apply Hgen|]. split; [apply Hgen|].
  unfold upsertEntry. destruct (existsb (has_key d t) rows).
  - by rewrite length_map.
  - rewrite length_app. simpl. lia.
Qed.

(** X7.  Upserts on different keys do not disturb each other: the row of
    the other key is found after the upsert as it was before.  Two upserts
    done in either order, each drawing whatever [id] the sequence hands out
    at its turn, give the same keys with the same field values; the tables
    are equal, [id]s and order included, when both keys are in the table
    already; and when both keys are free, the tables differ as soon as a key
    draws another [id] in the other order, as it does when the [id]s are
    drawn in call order. *)
Theorem upserts_on_other_keys
    f1 f2 f3 f4 d t a c p n d' t' a' c' p' n' rows :
  (d', t') <> (d, t) ->
  let content := fun r : Row => (key_of r, fields_of r) in
  let ab := upsertEntry f2 d t a c p n (upsertEntry f1 d' t' a' c' p' n' rows) in
  let ba := upsertEntry f4 d' t' a' c' p' n' (upsertEntry f3 d t a c p n rows) in
  filter (fun x => key_of x = (d', t')) (upsertEntry f3 d t a c p n rows)
  = filter (fun x => key_of x = (d', t')) rows
  /\ map content ab ≡ₚ map content ba
  /\ (existsb (has_key d t) rows = true -> existsb (has_key d' t') rows = true ->
      ab = ba)
  /\ (existsb (has_key d t) rows = false -> existsb (has_key d' t') rows = false ->
      f1 <> f4 -> ~ ab ≡ₚ ba).
Proof.
  intros Hne content ab ba.
  assert (forall r, has_key d t r = true -> has_key d' t' r = false) as Hx.
  { intros r H. apply has_key_true in H. apply not_true_is_false.
    intros H'. apply has_key_true in H'. congruence. }
  assert (forall r, has_key d' t' r = true -> has_key d t r = false) as Hx'.
  { intros r H. apply not_true_is_false. intros H'. apply Hx in H'. congruence. }
  assert (map (fun r => if has_key d t r then do_update a c p n r else r)
            (map (fun r => if has_key d' t' r then do_update a' c' p' n' r else r) rows)
          = map (fun r => if has_key d' t' r then do_update a' c' p' n' r else r)
              (map (fun r => if has_key d t r then do_update a c p n r else r) rows))
    as Hcomm.
  { rewrite !map_map. apply map_ext. intros r.
    destruct (has_key d t r) eqn:E, (has_key d' t' r) eqn:E'; cbv iota;
      rewrite ?has_key_do_update, ?E, ?E'; try done.
    apply Hx in E. congruence. }
  assert (has_key d t (mkRow f1 d' t' a' c' p' n') = false) as Hk'
    by (apply Hx'; by apply has_key_true).
  assert (has_key d' t' (mkRow f3 d t a c p n) = false) as Hk
    by (apply Hx; by apply has_key_true).
  split; [|split; [|split]].
  - clear Hcomm. unfold upsertEntry. destruct (existsb (has_key d t) rows).
    + induction rows as [|r rows IH]; [done|]. simpl.
      destruct (has_key d t r) eqn:E.
      * rewrite !filter_cons_False; [apply IH | |].
        -- intros H. apply has_key_true in H. apply Hx in E. congruence.
        -- intros H. apply (proj2 (has_key_true d' t' (do_update a c p n r))) in H.
           assert (has_key d' t' r = true) as H' by exact H.
           apply Hx in E. congruence.
      * destruct (decide (key_of r = (d', t'))).
        -- rewrite !filter_cons_True by done. by rewrite IH.
        -- rewrite !filter_cons_False by done. done.
    + rewrite filter_app, filter_cons_False, filter_nil, app_nil_r; [done|].
      unfold key_of. simpl. congruence.
  - unfold ab, ba. unfold upsertEntry at 1 3.
    rewrite !existsb_has_key_other by congruence.
    unfold upsertEntry.
    destruct (existsb (has_key d t) rows) eqn:E, (existsb (has_key d' t') rows) eqn:E'.
    + by rewrite Hcomm.
    + rewrite !map_app. simpl. by rewrite Hk'.
    + rewrite !map_app. simpl. by rewrite Hk.
    + rewrite <- !app_assoc, !map_app. apply Permutation_app_head. apply perm_swap.
  - intros E E'. unfold ab, ba. unfold upsertEntry at 1 3.
    rewrite !existsb_has_key_other by congruence.
    unfold upsertEntry. by rewrite E, E', Hcomm.
  - intros E E' Hid Hperm. unfold ab, ba in Hperm. unfold upsertEntry at 1 3 in Hperm.
    rewrite !existsb_has_key_other in Hperm by congruence.
    unfold upsertEntry in Hperm. rewrite E, E' in Hperm.
    assert (mkRow f1 d' t' a' c' p' n' ∈ (rows ++ [mkRow f3 d t a c p n])
                                        ++ [mkRow f4 d' t' a' c' p' n']) as Hin.
    { rewrite <- Hperm. rewrite !elem_of_app, !list_elem_of_singleton. left. by right. }
    rewrite !elem_of_app, !list_elem_of_singleton in Hin.
    destruct Hin as [[Hin | Heq] | Heq].
    + assert (existsb (has_key d' t') rows = true); [|congruence].
      apply existsb_exists. exists (mkRow f1 d' t' a' c' p' n').
      split; [by apply list_elem_of_In | by apply has_key_true].
    + apply Hne. by injection Heq as _ -> ->.
    + apply Hid. by injection Heq.
Qed.

Lemma upserts_on_other_keys_witness :
  let d := mkDate 2024 3 1 in
  let rows := [mkRow 1 d (mkTime 9 0 0 0) (Some "Write") (Some "Deep Work") (Some "") (Some "")] in
  let content := fun r : Row => (key_of r, fields_of r) in
  (d, mkTime 9 0 0 0) <> (d, mkTime 9 15 0 0)
  /\ map content
       (upsertEntry 3 d (mkTime 9 15 0 0) (Some "Mail") (Some "Admin") (Some "") (Some "")
          (upsertEntry 2 d (mkTime 9 0 0 0) (Some "Read") (Some "") (Some "") (Some "") rows))
     ≡ₚ map content
          (upsertEntry 3 d (mkTime 9 0 0 0) (Some "Read") (Some "") (Some "") (Some "")
             (upsertEntry 2 d (mkTime 9 15 0 0) (Some "Mail") (Some "Admin") (Some "")
                (Some "") rows)).
Proof.
  intros d rows content.
  assert ((d, mkTime 9 0 0 0) <> (d, mkTime 9 15 0 0)) as Hne by discriminate.
  split; [exact Hne|].
  apply (upserts_on_other_keys 2 3 2 3 d (mkTime 9 15 0 0) (Some "Mail") (Some "Admin")
           (Some "") (Some "") d (mkTime 9 0 0 0) (Some "Read") (Some "") (Some "")
           (Some "") rows Hne).
Defined.

(** ** The dashboard adds up *)

Lemma sum_hours_insert_desc x l :
  (sum_hours (insert_desc x l) == snd x + sum_hours l)%Q.
Proof.
  induction l as [|y l IH]; simpl; [reflexivity|].
  destruct (Qle_bool (snd y) (snd x)); simpl; [reflexivity|].
  rewrite IH. ring.
Qed.

Lemma sum_hours_order_by l : (sum_hours (order_by_hours_desc l) == sum_hours l)%Q.
Proof.
  induction l as [|x l IH]; simpl; [reflexivity|].
  by rewrite sum_hours_insert_desc, IH.
Qed.

Lemma sum_hours_of_counts (g : list (string * Z)) :
  (sum_hours (map (fun x => (fst x, total_hours (snd x))) g)
   == inject_Z (sum_counts g) * 0.25)%Q.
Proof.
  induction g as [|x g IH]; simpl; [reflexivity|].
  rewrite IH. unfold total_hours. rewrite inject_Z_plus. ring.
Qed.

Lemma count_rows_members (cs l : list string) :
  NoDup l ->
  sum_counts (map (fun c => (c, count_rows c cs)) l)
  = Z.of_nat (length (filter (fun x => x ∈ l) cs)).
Proof.
  intros Hnd. induction Hnd as [|c l Hc Hnd IH]; simpl.
  - induction cs as [|x cs IHcs]; [done|].
    rewrite filter_cons_False; [done|]. by intros H%elem_of_nil.
  - rewrite IH. unfold count_rows. clear IH.
    induction cs as [|x cs IHcs]; [done|].
    destruct (decide (x = c)) as [->|Hne].
    + rewrite (filter_cons_True (fun y => y = c)) by done.
      rewrite (filter_cons_False (fun y => y ∈ l)) by done.
      rewrite (filter_cons_True (fun y => y ∈ c :: l)) by (by left).
      simpl length. lia.
    + rewrite (filter_cons_False (fun y => y = c)) by done.
      destruct (decide (x ∈ l)) as [Hin|Hnin].
      * rewrite (filter_cons_True (fun y => y ∈ l)) by done.
        rewrite (filter_cons_True (fun y => y ∈ c :: l)) by (by right).
        simpl length. lia.
      * rewrite (filter_cons_False (fun y => y ∈ l)) by done.
        rewrite (filter_cons_False (fun y => y ∈ c :: l)); [done|].
        intros [?|?]%elem_of_cons; done.
Qed.

Lemma length_kept_categories (rows : list Row) :
  length (omap kept_category rows)
  = length (filter (fun r => is_categorized r = true) rows).
Proof.
  induction rows as [|r rows IH]; [done|]. csimpl.
  unfold kept_category at 1, is_categorized at 1.
  destruct (category r) as [c|] eqn:Hc.
  - destruct (String.eqb c "") eqn:E.
    + rewrite filter_cons_False; [done|].
      unfold is_categorized. rewrite Hc, E. simpl. done.
    + rewrite filter_cons_True; [simpl; by rewrite IH|].
      unfold is_categorized. by rewrite Hc, E.
  - rewrite filter_cons_False; [done|]. unfold is_categorized. by rewrite Hc.
Qed.

(** X8.  The hours of the dashboard add up to a quarter of an hour for
    every stored row whose category is neither NULL nor empty: no such row
    is counted twice or left out, whatever its date. *)
Theorem dashboard_hours_add_up rows :
  (sum_hours (computeCategoryTotals rows)
   == inject_Z (Z.of_nat (length (filter (fun r => is_categorized r = true) rows)))
      * 0.25)%Q.
Proof.
  unfold computeCategoryTotals. rewrite sum_hours_order_by, sum_hours_of_counts.
  unfold group_by_category. rewrite count_rows_members by apply NoDup_remove_dups.
  rewrite <- length_kept_categories.
  assert (filter (fun x => x ∈ remove_dups (omap kept_category rows))
                 (omap kept_category rows) = omap kept_category rows) as ->; [|reflexivity].
  generalize (omap kept_category rows). intros cs.
  assert (forall l : list string, (forall x, x ∈ l -> x ∈ remove_dups cs) ->
            filter (fun x => x ∈ remove_dups cs) l = l) as H.
  { induction l as [|x l IH]; intros Hl; [done|].
    rewrite filter_cons_True by (apply Hl; by left).
    f_equal. apply IH. intros y Hy. apply Hl. by right. }
  apply H. intros x Hx. by apply elem_of_remove_dups.
Qed.



(** ** What the day view shows *)

Lemma flat_map_ext_on {A B} (f g : A -> list B) (l : list A) :
  (forall x, x ∈ l -> f x = g x) -> flat_map f l = flat_map g l.
Proof.
  induction l as [|x l IH]; intros H; [done|]. simpl.
  rewrite (H x) by (by left). f_equal. apply IH. intros y Hy. apply H. by right.
Qed.

(** X10.  The page looks the entries up under the labels of its slots and
    nowhere else: two mappings that agree on those labels give the same
    page.  So an entry stored under a time of day that is none of the 96
    slots, say 09:07, is not on the page of its date, although it is in the
    table and counted in the dashboard. *)
Theorem page_shows_slot_entries_only ctx m :
  (forall s, s ∈ c_time_slots ctx -> m !! s = c_entries ctx !! s) ->
  render_template_string (with_entries ctx m) = render_template_string ctx
  /\ (forall k e, k ∉ c_time_slots ctx ->
        render_template_string (with_entries ctx (<[k := e]> (c_entries ctx)))
        = render_template_string ctx).
Proof.
  assert (forall m', (forall s, s ∈ c_time_slots ctx -> m' !! s = c_entries ctx !! s) ->
            render_template_string (with_entries ctx m') = render_template_string ctx)
    as Hgen.
  { intros m' Hm.
    assert (flat_map (slot_block (with_entries ctx m')) (c_time_slots ctx)
            = flat_map (slot_block ctx) (c_time_slots ctx)) as Hfm.
    { apply flat_map_ext_on. intros s Hs.
      unfold slot_block. simpl. by rewrite (Hm s). }
    unfold render_template_string, template.
    cbn [with_entries c_time_slots c_dashboard_data c_prev_day c_next_day
         c_today_day c_current_date].
    by rewrite Hfm. }
  intros Hm. split; [by apply Hgen|].
  intros k e Hk. apply Hgen. intros s Hs. apply lookup_insert_ne. congruence.
Qed.

Lemma page_shows_slot_entries_only_witness :
  let d := mkDate 2024 3 1 in
  let e := mkFields (Some "Call") (Some "Admin") (Some "") (Some "") in
  let ctx := mkContext time_slots ∅ d "2024-03-01" [("Admin", 0.25%Q)]
                       "2024-02-29" "2024-03-02" "2024-03-01" in
  (strftime_HM (mkTime 9 7 0 0) ∉ time_slots)
  /\ render_template_string (with_entries ctx {[ "09:07" := e ]})
     = render_template_string ctx.
Proof.
  intros d e ctx.
  assert (strftime_HM (mkTime 9 7 0 0) ∉ time_slots) as Hk
    by (apply (bool_decide_unpack _); by vm_compute).
  split; [exact Hk|].
  assert (forall s, s ∈ c_time_slots ctx ->
            ({[ "09:07" := e ]} : gmap string Fields) !! s = c_entries ctx !! s) as Hm.
  { intros s Hs. simpl. rewrite lookup_empty. apply lookup_singleton_ne.
    intros <-. by apply Hk. }
  exact (proj1 (page_shows_slot_entries_only ctx {[ "09:07" := e ]} Hm)).
Defined.

(** ** Saving, then following the redirect *)



Section SavedThenShown.

Context {py : Python}.


End SavedThenShown.


(** ** Whole minutes *)

Lemma whole_minutes_upsert fresh d t a c p n rows :
  time_ok t = true /\ whole_minute t = true ->
  on_whole_minutes (Some rows) ->
  on_whole_minutes (Some (upsertEntry fresh d t a c p n rows)).
Proof.
  intros Ht H. simpl in *. unfold upsertEntry.
  destruct (existsb (has_key d t) rows).
  - rewrite map_as_fmap. apply Forall_fmap. eapply Forall_impl; [exact H|].
    intros r Hr. simpl. by destruct (has_key d t r).
  - apply Forall_app. split; [done|]. by apply Forall_singleton.
Qed.

Section WholeMinutes.

Variable date_in : string -> option Date.
Variable time_in : string -> option Time.
Context {py : Python}.

Lemma step_on_whole_minutes w rq :
  submits_whole_minute time_in rq ->
  on_whole_minutes (time_log w) ->
  on_whole_minutes (time_log (step date_in time_in w rq)).
Proof.
  intros Hrq Hok. destruct w as [td re fl tl se oc co]. cbn [time_log] in Hok.
  destruct rq as [|args|form]; unfold step, serve.
  - run_handler; auto. all: destruct tl; simpl; auto.
  - run_handler; auto.
  - simpl in Hrq. run_handler; auto.
    all: apply whole_minutes_upsert; [by eapply Hrq | done].
Qed.

Lemma run_on_whole_minutes rqs w :
  Forall (submits_whole_minute time_in) rqs ->
  on_whole_minutes (time_log w) ->
  on_whole_minutes (time_log (run date_in time_in w rqs)).
Proof.
  revert w. induction rqs as [|rq rqs IH]; intros w Hrqs Hok; [done|].
  apply Forall_cons in Hrqs as [Hrq Hrqs].
  simpl. apply IH; [done|]. by apply step_on_whole_minutes.
Qed.

End WholeMinutes.

Lemma day_mapping_exact_of_distinct rows d fetched :
  unique_keys rows -> distinct_labels d rows ->
  fetched ≡ₚ select_day d rows ->
  day_mapping_exact rows d (entries_of fetched).
Proof.
  intros Hu Hdist Hperm. split.
  - intros r Hr Hd. apply entries_of_complete.
    + rewrite Hperm. apply elem_of_select_day. by exists r.
    + intros t' v' Hin Hlab. rewrite Hperm in Hin.
      apply elem_of_select_day in Hin as (r' & Hr' & Hd' & <- & <-).
      f_equal. eapply unique_keys_same_key; eauto.
      unfold key_of. f_equal; [congruence|]. by apply Hdist.
  - intros k v H. apply entries_of_sound in H as (t & Hin & Hk).
    rewrite Hperm in Hin. apply elem_of_select_day in Hin as (r & ? & ? & ? & ?).
    exists r. subst. done.
Qed.

Section WholeMinuteRequests.

Context {py : Python}.

(** X12.  When every [POST /save_entry] of a sequence of requests submits a
    [time_slot] that the store reads as a whole minute from [00:00] to
    [23:59], as the [HH:MM] values of the page's forms are read, the table
    stays on such times through the sequence, and the day view is then
    exact: in whatever order the rows are fetched, the mapping of a date
    holds every stored row of that date under the [HH:MM] label of its time
    and nothing else. *)
Theorem whole_minute_slots_keep_the_view_exact
    date_in time_in w rqs rows d fetched :
  Forall (submits_whole_minute time_in) rqs ->
  table_ok (time_log w) ->
  on_whole_minutes (time_log w) ->
  time_log (run date_in time_in w rqs) = Some rows ->
  fetched ≡ₚ select_day d rows ->
  on_whole_minutes (Some rows)
  /\ day_mapping_exact rows d (entries_of fetched)
  /\ (forall r, r ∈ rows -> label_of (time_slot r) = strftime_HM (time_slot r)).
Proof.
  intros Hrqs Hok Hwm Hrun Hperm.
  pose proof (run_on_whole_minutes date_in time_in rqs w Hrqs Hwm) as Hw.
  pose proof (run_table_ok date_in time_in rqs w Hok) as Hu.
  rewrite Hrun in Hw, Hu. split; [done|].
  simpl in Hw. rewrite Forall_forall in Hw. split.
  - apply day_mapping_exact_of_distinct; [done | | done].
    apply whole_minutes_distinct_labels. intros r Hr _. by apply Hw.
  - intros r Hr. apply label_of_ok. by apply Hw.
Qed.

End WholeMinuteRequests.

Lemma whole_minute_slots_keep_the_view_exact_witness :
  let w := world_with (Some []) in
  let rqs := [PostSaveEntry (entry_form "2024-03-01" "09:00" "Write" "Deep Work" "" "");
              GetIndex {["date" := "2024-03-01"]};
              PostSaveEntry (entry_form "2024-03-01" "09:15" "Mail" "Admin" "" "")] in
  let d := mkDate 2024 3 1 in
  let rows := [mkRow 1 d (mkTime 9 0 0 0) (Some "Write") (Some "Deep Work") (Some "") (Some "");
               mkRow 2 d (mkTime 9 15 0 0) (Some "Mail") (Some "Admin") (Some "") (Some "")] in
  Forall (submits_whole_minute iso_time_in) rqs
  /\ time_log (run iso_date_in iso_time_in w rqs) = Some rows
  /\ day_mapping_exact rows d (listEntriesForDate d rows).
Proof.
  intros w rqs d rows.
  assert (Forall (submits_whole_minute iso_time_in) rqs) as Hrqs.
  { repeat apply Forall_cons_2; try apply Forall_nil_2; try exact I.
    all: intros vs t Hvs Ht; unfold entry_form in Hvs;
      rewrite lookup_insert_ne, lookup_insert_eq in Hvs by done;
      injection Hvs as <-; vm_compute in Ht; injection Ht as <-; done. }
  assert (time_log (run iso_date_in iso_time_in w rqs) = Some rows) as Hrun
    by (by vm_compute).
  split; [exact Hrqs|]. split; [exact Hrun|].
  refine (proj1 (proj2 (whole_minute_slots_keep_the_view_exact iso_date_in iso_time_in
                   w rqs rows d (select_day d rows) Hrqs _ _ Hrun _))).
  - apply NoDup_nil_2.
  - apply Forall_nil_2.
  - reflexivity.
Defined.

(** ** Days before and after *)

Lemma all_from_spec fuel i P x :
  all_from fuel i P = true -> i <= x < i + Z.of_nat fuel -> P x = true.
Proof.
  revert i. induction fuel as [|fuel IH]; intros i H Hx; [lia|].
  simpl in H. apply andb_prop in H as [Hi H].
  destruct (decide (x = i)) as [->|Hne]; [done|].
  apply (IH (i + 1)); [done | lia].
Qed.

Lemma days_before_year_mono y y' : 1 <= y <= y' -> days_before_year y <= days_before_year y'.
Proof. unfold days_before_year. intros H. Z.div_mod_to_equations. lia. Qed.

Lemma days_before_year_shift y a :
  days_before_year (y + 400 * a) = days_before_year y + DI400Y * a.
Proof.
  unfold days_before_year. change DI400Y with 146097.
  Z.div_mod_to_equations. lia.
Qed.

Lemma is_leap_shift y a : is_leap (y + 400 * a) = is_leap y.
Proof.
  unfold is_leap.
  replace ((y + 400 * a) mod 4) with (y mod 4)
    by (Z.div_mod_to_equations; lia).
  replace ((y + 400 * a) mod 100) with (y mod 100)
    by (Z.div_mod_to_equations; lia).
  replace ((y + 400 * a) mod 400) with (y mod 400)
    by (Z.div_mod_to_equations; lia).
  done.
Qed.

Lemma days_in_month_shift y a m : days_in_month (y + 400 * a) m = days_in_month y m.
Proof. unfold days_in_month. by rewrite is_leap_shift. Qed.

Lemma days_before_month_shift y a m :
  days_before_month (y + 400 * a) m = days_before_month y m.
Proof.
  unfold days_before_month. generalize (Z.to_nat (m - 1)). intros k.
  induction k as [|k IH]; [done|]. simpl. by rewrite IH, days_in_month_shift.
Qed.

Lemma toordinal_shift y a m d :
  toordinal (mkDate (y + 400 * a) m d) = toordinal (mkDate y m d) + DI400Y * a.
Proof.
  unfold toordinal. simpl. rewrite days_before_year_shift, days_before_month_shift. lia.
Qed.

Lemma month_of_yday_shift y a fuel m n :
  month_of_yday (y + 400 * a) fuel m n = month_of_yday y fuel m n.
Proof.
  revert m n. induction fuel as [|fuel IH]; intros m n; [done|]. simpl.
  rewrite days_in_month_shift. destruct (n <? days_in_month y m); [done|]. apply IH.
Qed.

Lemma fromordinal_shift n a :
  fromordinal (n + DI400Y * a)
  = mkDate (year (fromordinal n) + 400 * a) (month (fromordinal n)) (day (fromordinal n)).
Proof.
  unfold fromordinal.
  replace ((n + DI400Y * a - 1) / DI400Y) with ((n - 1) / DI400Y + a)
    by (change DI400Y with 146097; Z.div_mod_to_equations; lia).
  replace ((n + DI400Y * a - 1) mod DI400Y) with ((n - 1) mod DI400Y)
    by (change DI400Y with 146097; Z.div_mod_to_equations; lia).
  cbv zeta.
  set (r := (n - 1) mod DI400Y).
  set (n100 := r / DI100Y). set (r100 := r mod DI100Y).
  set (n4 := r100 / DI4Y). set (r4 := r100 mod DI4Y).
  set (n1 := r4 / 365). set (r1 := r4 mod 365).
  replace (((n - 1) / DI400Y + a) * 400 + 1 + n100 * 100 + n4 * 4 + n1)
    with (((n - 1) / DI400Y * 400 + 1 + n100 * 100 + n4 * 4 + n1) + 400 * a) by lia.
  set (y := (n - 1) / DI400Y * 400 + 1 + n100 * 100 + n4 * 4 + n1).
  destruct ((n1 =? 4) || (n100 =? 4)).
  - simpl. f_equal. lia.
  - rewrite month_of_yday_shift. by destruct (month_of_yday y 11 1 r1).
Qed.

(** One cycle of 400 years, date by date. *)
Lemma first_cycle_of_dates y m d :
  1 <= y <= 400 -> date_ok (mkDate y m d) = true ->
  fromordinal (toordinal (mkDate y m d)) = mkDate y m d
  /\ 1 <= toordinal (mkDate y m d) <= days_before_year (y + 1).
Proof.
  intros Hy Hok.
  assert (all_from 400 1 (fun y => all_from 12 1 (fun m => all_from 31 1 (fun d =>
            negb (date_ok (mkDate y m d))
            || (bool_decide (fromordinal (toordinal (mkDate y m d)) = mkDate y m d)
                && (1 <=? toordinal (mkDate y m d))
                && (toordinal (mkDate y m d) <=? days_before_year (y + 1)))))) = true)
    as Hall by (vm_compute; reflexivity).
  pose proof (days_in_month_le y m) as Hle.
  pose proof Hok as Hok'. unfold date_ok in Hok'. cbn [year month day] in Hok'.
  assert (1 <= m <= 12 /\ 1 <= d <= 31) as [Hm Hd] by lia.
  pose proof (all_from_spec _ _ _ y Hall ltac:(lia)) as H. cbv beta in H.
  pose proof (all_from_spec _ _ _ m H ltac:(lia)) as H'. cbv beta in H'.
  pose proof (all_from_spec _ _ _ d H' ltac:(lia)) as H''. cbv beta in H''.
  rewrite Hok in H''. cbn [negb orb] in H''.
  apply andb_prop in H'' as [H'' H3]. apply andb_prop in H'' as [H1 H2].
  apply bool_decide_eq_true in H1. split; [done|]. lia.
Qed.

(** [fromordinal] reads back what [toordinal] writes, and the ordinal of a
    valid date is in range. *)
Lemma fromordinal_toordinal d :
  date_ok d = true ->
  fromordinal (toordinal d) = d /\ 1 <= toordinal d <= MAXORDINAL.
Proof.
  intros Hok. destruct d as [y m dd].
  pose proof Hok as Hok'. unfold date_ok, MINYEAR, MAXYEAR in Hok'.
  cbn [year month day] in Hok'.
  set (a := (y - 1) / 400). set (y0 := (y - 1) mod 400 + 1).
  assert (y = y0 + 400 * a) as Hy by (unfold y0, a; Z.div_mod_to_equations; lia).
  assert (1 <= y0 <= 400) as Hy0 by (unfold y0; Z.div_mod_to_equations; lia).
  assert (0 <= a) as Ha by (unfold a; Z.div_mod_to_equations; lia).
  assert (date_ok (mkDate y0 m dd) = true) as Hok0.
  { unfold date_ok, MINYEAR, MAXYEAR. cbn [year month day].
    rewrite <- (days_in_month_shift y0 a m), <- Hy.
    repeat (apply andb_true_intro; split); lia. }
  destruct (first_cycle_of_dates y0 m dd Hy0 Hok0) as [Hrt Hb].
  rewrite Hy, toordinal_shift, fromordinal_shift, Hrt. cbn [year month day].
  split; [done|]. split; [change DI400Y with 146097; lia|].
  assert (days_before_year (y0 + 1) + DI400Y * a = days_before_year (y + 1)) as Hs.
  { rewrite Hy. replace (y0 + 400 * a + 1) with (y0 + 1 + 400 * a) by lia.
    by rewrite days_before_year_shift. }
  pose proof (days_before_year_mono (y + 1) 10000 ltac:(lia)) as Hmono.
  change (days_before_year 10000) with MAXORDINAL in Hmono. lia.
Qed.

Lemma days_before_year_succ y :
  days_before_year (y + 1) = days_before_year y + (if is_leap y then 366 else 365).
Proof.
  unfold days_before_year, is_leap.
  destruct (y mod 4 =? 0) eqn:E4, (y mod 100 =? 0) eqn:E100, (y mod 400 =? 0) eqn:E400;
    cbn [andb orb negb];
    rewrite ?Z.eqb_eq, ?Z.eqb_neq in *; Z.div_mod_to_equations; lia.
Qed.

Lemma days_before_month_succ y m :
  1 <= m -> days_before_month y (m + 1) = days_before_month y m + days_in_month y m.
Proof.
  intros Hm. unfold days_before_month.
  replace (Z.to_nat (m + 1 - 1)) with (S (Z.to_nat (m - 1))) by lia.
  simpl days_before_month_aux. f_equal. f_equal. lia.
Qed.

Lemma days_before_december y :
  days_before_month y 12 + 31 = (if is_leap y then 366 else 365).
Proof.
  unfold days_before_month. change (Z.to_nat (12 - 1)) with 11%nat.
  cbn [days_before_month_aux]. unfold days_in_month.
  destruct (is_leap y); reflexivity.
Qed.

Lemma days_in_month_ge y m : 28 <= days_in_month y m.
Proof.
  unfold days_in_month.
  repeat match goal with |- context [if ?b then _ else _] => destruct b end; lia.
Qed.

Lemma date_ok_iff y m d :
  date_ok (mkDate y m d) = true <->
  1 <= y <= 9999 /\ 1 <= m <= 12 /\ 1 <= d <= days_in_month y m.
Proof. unfold date_ok, MINYEAR, MAXYEAR. cbn [year month day]. lia. Qed.

Lemma succ_date_ordinal d :
  date_ok d = true -> d <> mkDate 9999 12 31 ->
  date_ok (succ_date d) = true /\ toordinal (succ_date d) = toordinal d + 1.
Proof.
  destruct d as [y m dd]. intros Hok Hne. apply date_ok_iff in Hok.
  pose proof (days_in_month_ge y (m + 1)).
  unfold succ_date. cbn [year month day].
  destruct (dd <? days_in_month y m) eqn:E1; [|destruct (m <? 12) eqn:E2].
  - split; [apply date_ok_iff; lia|]. unfold toordinal. cbn [year month day]. lia.
  - split; [apply date_ok_iff; lia|]. unfold toordinal. cbn [year month day].
    rewrite days_before_month_succ by lia. lia.
  - assert (m = 12) as -> by lia.
    assert (dd = 31) as -> by (change (days_in_month y 12) with 31 in *; lia).
    assert (y <> 9999) by congruence.
    pose proof (days_in_month_ge (y + 1) 1).
    split; [apply date_ok_iff; lia|]. unfold toordinal. cbn [year month day].
    rewrite days_before_year_succ. pose proof (days_before_december y).
    change (days_before_month (y + 1) 1) with 0. destruct (is_leap y); lia.
Qed.

Lemma pred_date_ordinal d :
  date_ok d = true -> d <> mkDate 1 1 1 ->
  date_ok (pred_date d) = true /\ toordinal (pred_date d) = toordinal d - 1.
Proof.
  destruct d as [y m dd]. intros Hok Hne. apply date_ok_iff in Hok.
  pose proof (days_in_month_ge y (m - 1)).
  unfold pred_date. cbn [year month day].
  destruct (1 <? dd) eqn:E1; [|destruct (1 <? m) eqn:E2].
  - split; [apply date_ok_iff; lia|]. unfold toordinal. cbn [year month day]. lia.
  - split; [apply date_ok_iff; lia|]. unfold toordinal. cbn [year month day].
    pose proof (days_before_month_succ y (m - 1) ltac:(lia)) as Hs.
    replace (m - 1 + 1) with m in Hs by lia. lia.
  - assert (m = 1) as -> by lia. assert (dd = 1) as -> by lia.
    assert (y <> 1) by congruence.
    split; [apply date_ok_iff; change (days_in_month (y - 1) 12) with 31; lia|].
    unfold toordinal. cbn [year month day].
    pose proof (days_before_year_succ (y - 1)) as Hs.
    replace (y - 1 + 1) with y in Hs by lia.
    pose proof (days_before_december (y - 1)).
    change (days_before_month y 1) with 0. destruct (is_leap (y - 1)); lia.
Qed.

Lemma date_add_days_to d k e :
  date_ok d = true -> date_ok e = true -> toordinal e = toordinal d + k ->
  date_add_days d k = Some e /\ date_add_days e (- k) = Some d.
Proof.
  intros Hok He Hord.
  destruct (fromordinal_toordinal d Hok) as [Hrt Hb].
  destruct (fromordinal_toordinal e He) as [Hrt' Hb'].
  unfold date_add_days. rewrite <- Hord, Hrt'.
  replace (toordinal e + - k) with (toordinal d) by lia. rewrite Hrt.
  assert ((0 <? toordinal e) && (toordinal e <=? MAXORDINAL) = true) as -> by lia.
  assert ((0 <? toordinal d) && (toordinal d <=? MAXORDINAL) = true) as -> by lia.
  done.
Qed.

(** X13.  The day links of the page.  For a valid date other than
    9999-12-31 the date [index] computes for [next_day] is the day after on
    the calendar: the next day of the month, else the first of the next
    month, else the first of January of the next year; for a valid date
    other than 0001-01-01 the date for [prev_day] is the day before,
    February having 29 days in leap years.  Both are valid dates, and going
    forth and back returns to the date shown. *)
Theorem day_links_are_the_calendar_neighbours d :
  date_ok d = true ->
  (d <> mkDate 9999 12 31 ->
   date_add_days d 1 = Some (succ_date d)
   /\ date_ok (succ_date d) = true
   /\ date_add_days (succ_date d) (-1) = Some d)
  /\ (d <> mkDate 1 1 1 ->
      date_add_days d (-1) = Some (pred_date d)
      /\ date_ok (pred_date d) = true
      /\ date_add_days (pred_date d) 1 = Some d).
Proof.
  intros Hok. split; intros Hne.
  - destruct (succ_date_ordinal d Hok Hne) as [He Hord].
    destruct (date_add_days_to d 1 (succ_date d) Hok He Hord) as [H1 H2]. done.
  - destruct (pred_date_ordinal d Hok Hne) as [He Hord].
    destruct (date_add_days_to d (-1) (pred_date d) Hok He ltac:(lia)) as [H1 H2].
    done.
Qed.

Lemma day_links_are_the_calendar_neighbours_witness :
  date_ok (mkDate 2024 3 1) = true
  /\ date_add_days (mkDate 2024 3 1) (-1) = Some (mkDate 2024 2 29)
  /\ date_add_days (mkDate 2024 2 29) 1 = Some (mkDate 2024 3 1).
Proof.
  assert (date_ok (mkDate 2024 3 1) = true) as Hok by reflexivity.
  split; [exact Hok|].
  destruct (day_links_are_the_calendar_neighbours (mkDate 2024 3 1) Hok) as [_ H].
  destruct (H ltac:(discriminate)) as (H1 & _ & H2).
  split; [exact H1 | exact H2].
Defined.

(** ** The day view at the ends of the calendar *)

Section DayView.

Context {py : Python}.

(** X14.  [GET /?date=D] on a store that answers.  For a date inside the
    calendar the response is the page of [D], status 200, with the links to
    the day before and the day after, written so that [index] reads them
    back as those dates.  For 0001-01-01 and 9999-12-31 the date arithmetic
    overflows: the response is a 500 although the store is fine.  In both
    cases the connection is closed again and the world is as it was. *)
Theorem index_of_a_date args w v d :
  args !! "date" = Some v -> fromisoformat v = Some d ->
  reachable w = true -> faults w = [] -> is_Some (time_log w) ->
  (d = mkDate 1 1 1 \/ d = mkDate 9999 12 31 ->
   serve (index args) w = (Page 500 "Internal Server Error", w))
  /\ (d <> mkDate 1 1 1 -> d <> mkDate 9999 12 31 ->
      exists ctx,
        serve (index args) w = (Page 200 (render_template_string ctx), w)
        /\ c_current_date ctx = d
        /\ c_date_str ctx = isoformat d
        /\ fromisoformat (c_date_str ctx) = Some d
        /\ fromisoformat (c_prev_day ctx) = Some (pred_date d)
        /\ fromisoformat (c_next_day ctx) = Some (succ_date d)).
Proof.
  intros Ha Hv Hr Hf [rows Ht].
  pose proof (fromisoformat_ok v d Hv) as Hok.
  destruct w as [td re fl tl se oc co]. simpl in Hr, Hf, Ht. subst re fl tl.
  unfold serve, index, bind, date_today. cbv beta iota. cbn [today].
  rewrite Ha. cbn [from_option Datatypes.id]. rewrite Hv.
  cbn [from_option Datatypes.id]. split.
  - intros [-> | ->]; reflexivity.
  - intros Hmin Hmax.
    destruct (pred_date_ordinal d Hok Hmin) as [Hpok Hpord].
    destruct (succ_date_ordinal d Hok Hmax) as [Hsok Hsord].
    destruct (date_add_days_to d (-1) (pred_date d) Hok Hpok ltac:(lia)) as [Hp _].
    destruct (date_add_days_to d 1 (succ_date d) Hok Hsok Hsord) as [Hn _].
    rewrite Hp, Hn.
    eexists. split; [reflexivity|]. cbn [c_current_date c_date_str c_prev_day c_next_day].
    split; [done|]. split; [done|].
    split; [by apply fromisoformat_isoformat|].
    split; by apply fromisoformat_isoformat.
Qed.

End DayView.

Lemma index_of_a_date_witness :
  let w := world_with (Some []) in
  fromisoformat "0001-01-01" = Some (mkDate 1 1 1)
  /\ serve (index {["date" := "0001-01-01"]}) w = (Page 500 "Internal Server Error", w).
Proof.
  intros w.
  assert (fromisoformat "0001-01-01" = Some (mkDate 1 1 1)) as Hv by reflexivity.
  split; [exact Hv|].
  refine (proj1 (index_of_a_date {["date" := "0001-01-01"]} w "0001-01-01" (mkDate 1 1 1)
                   eq_refl Hv eq_refl eq_refl _) _).
  - by eexists.
  - by left.
Defined.

(** ** The keys of the day mapping *)

Lemma entries_of_has_label (l : list (Time * Fields)) t v :
  (t, v) ∈ l -> is_Some (entries_of l !! strftime_HM t).
Proof.
  induction l as [|[t0 f0] l IH] using rev_ind; intros Hin.
  - by apply elem_of_nil in Hin.
  - rewrite entries_of_snoc. simpl.
    destruct (decide (strftime_HM t0 = strftime_HM t)) as [He|Hne].
    + rewrite He, lookup_insert_eq. by eexists.
    + rewrite lookup_insert_ne by done. apply IH.
      apply elem_of_app in Hin as [Hin|Hin]; [done|].
      apply list_elem_of_singleton in Hin. congruence.
Qed.

(** X16.  The keys of the day mapping are exactly the [HH:MM] labels of
    the stored rows of the date, each the label of the time as the driver
    hands it back, so [00:00] for a stored [24:00]; this in whatever order
    the rows are fetched and whether or not rows share a label.  A date
    without rows has the empty mapping, and the mapping never has more
    entries than the date has rows. *)
Theorem day_mapping_keys rows d fetched :
  fetched ≡ₚ select_day d rows ->
  (forall k, is_Some (entries_of fetched !! k) <->
     exists r, r ∈ rows /\ entry_date r = d /\ label_of (time_slot r) = k)
  /\ ((forall r, r ∈ rows -> entry_date r <> d) -> entries_of fetched = ∅)
  /\ (size (entries_of fetched) <= length (filter (fun r => entry_date r = d) rows))%nat.
Proof.
  intros Hperm.
  assert (forall k, is_Some (entries_of fetched !! k) <->
     exists r, r ∈ rows /\ entry_date r = d /\ label_of (time_slot r) = k) as Hkeys.
  { intros k. split.
    - intros [v H]. apply entries_of_sound in H as (t & Hin & Hk).
      rewrite Hperm in Hin. apply elem_of_select_day in Hin as (r & ? & ? & ? & ?).
      exists r. unfold label_of. subst. done.
    - intros (r & Hr & Hd & <-). apply (entries_of_has_label _ _ (fields_of r)).
      rewrite Hperm. apply elem_of_select_day. by exists r. }
  split; [done|]. split.
  - intros Hnone. apply map_eq. intros k. rewrite lookup_empty.
    apply eq_None_not_Some. intros H. apply Hkeys in H as (r & Hr & Hd & _).
    by apply (Hnone r).
  - assert (length fetched = length (filter (fun r => entry_date r = d) rows)) as <-.
    { rewrite Hperm. unfold select_day. by rewrite length_map. }
    clear. induction fetched as [|x l IH] using rev_ind; [done|].
    rewrite entries_of_snoc, length_app. simpl.
    destruct (entries_of l !! strftime_HM x.1) eqn:E.
    + rewrite map_size_insert_Some by done. lia.
    + rewrite map_size_insert_None by done. lia.
Qed.

Lemma day_mapping_keys_witness :
  let d := mkDate 2024 3 1 in
  let rows := [mkRow 1 d (mkTime 0 0 0 0) (Some "a") (Some "") (Some "") (Some "");
               mkRow 2 d end_of_day (Some "b") (Some "") (Some "") (Some "");
               mkRow 3 (mkDate 2024 3 2) (mkTime 7 0 0 0) (Some "c") (Some "") (Some "") (Some "")] in
  select_day d rows ≡ₚ select_day d rows
  /\ is_Some (listEntriesForDate d rows !! "00:00")
  /\ (size (listEntriesForDate d rows) <= 2)%nat
  /\ listEntriesForDate (mkDate 2024 3 3) rows = ∅.
Proof.
  intros d rows. split; [reflexivity|]. split; [|split].
  - apply (proj1 (day_mapping_keys rows d (select_day d rows) (reflexivity _))).
    exists (mkRow 2 d end_of_day (Some "b") (Some "") (Some "") (Some "")).
    split; [right; by left | done].
  - exact (proj2 (proj2 (day_mapping_keys rows d (select_day d rows) (reflexivity _)))).
  - refine (proj1 (proj2 (day_mapping_keys rows (mkDate 2024 3 3)
                     (select_day (mkDate 2024 3 3) rows) (reflexivity _))) _).
    intros r Hr. repeat (apply elem_of_cons in Hr as [->|Hr]; [discriminate|]).
    by apply elem_of_nil in Hr.
Defined.

(** ** Connections over time *)

Section Leaks.

Variable date_in : string -> option Date.
Variable time_in : string -> option Time.
Context {py : Python}.

Lemma step_open_conns w rq :
  (open_conns w <= open_conns (step date_in time_in w rq) <= S (open_conns w))%nat.
Proof.
  destruct w as [td re fl tl se oc co].
  destruct rq as [|args|form]; unfold step, serve; run_handler; lia.
Qed.

Lemma step_startup_open_conns w :
  open_conns (step date_in time_in w Startup) = open_conns w.
Proof. destruct w as [td re fl tl se oc co]. unfold step. run_handler; lia. Qed.

End Leaks.

Section Bounded.

Context {py : Python}.

(** X17.  Connections over a sequence of requests: the count of open
    connections never goes down, a request leaves one connection open at
    most, and schema initialization leaves none; so after [n] requests
    at most [n] connections have been left open. *)
Theorem connections_left_open_are_bounded date_in time_in w rqs :
  (open_conns w <= open_conns (run date_in time_in w rqs)
   <= open_conns w + length (filter (fun rq => is_route rq = true) rqs))%nat.
Proof.
  revert w. induction rqs as [|rq rqs IH]; intros w; [simpl; lia|].
  simpl run. specialize (IH (step date_in time_in w rq)).
  pose proof (step_open_conns date_in time_in w rq) as Hs.
  destruct rq as [|args|form].
  - rewrite filter_cons_False by done.
    rewrite step_startup_open_conns in *. lia.
  - rewrite filter_cons_True by done. simpl length. lia.
  - rewrite filter_cons_True by done. simpl length. lia.
Qed.

End Bounded.

(** ** Values the driver refuses *)

(** X18.  A complete form with a NUL character in one of its six values
    never reaches the store: the connection is made, the driver refuses the
    parameter before anything is sent, and the request is answered 500.  The
    table, the sequence of [id] and the calls still to fail are what they
    were, nothing is printed, and the connection is left open. *)
Theorem nul_in_a_form_value_is_a_500
    date_in time_in form w vd vs va vc vp vn :
  form !! "entry_date" = Some vd -> form !! "time_slot" = Some vs ->
  form !! "activity" = Some va -> form !! "category" = Some vc ->
  form !! "priority" = Some vp -> form !! "notes" = Some vn ->
  existsb has_nul [vd; vs; va; vc; vp; vn] = true ->
  reachable w = true ->
  serve (save_entry date_in time_in form) w
  = (Page 500 "Internal Server Error",
     mkWorld (today w) true (faults w) (time_log w) (serial w) (S (open_conns w))
             (console w)).
Proof.
  intros H1 H2 H3 H4 H5 H6 Hnul Hr. destruct w as [td re fl tl se oc co].
  cbn [reachable] in Hr. subst re.
  unfold serve, save_entry, bind, form_get. rewrite H1, H2, H3, H4, H5, H6.
  cbn [ret]. unfold get_db_connection, try_except, bind, connect. cbn.
  unfold execute_upsert. by rewrite Hnul.
Qed.

Lemma nul_in_a_form_value_is_a_500_witness :
  let w := world_with (Some []) in
  let form := entry_form "2024-03-01" "09:00" (String zero "x") "Admin" "" "" in
  has_nul (String zero "x") = true
  /\ fst (serve (save_entry iso_date_in iso_time_in form) w)
     = Page 500 "Internal Server Error"
  /\ time_log (snd (serve (save_entry iso_date_in iso_time_in form) w)) = Some []
  /\ open_conns (snd (serve (save_entry iso_date_in iso_time_in form) w)) = 1%nat.
Proof.
  intros w form. split; [reflexivity|].
  pose proof (nul_in_a_form_value_is_a_500 iso_date_in iso_time_in form w
                "2024-03-01" "09:00" (String zero "x") "Admin" "" ""
                eq_refl eq_refl eq_refl eq_refl eq_refl eq_refl eq_refl eq_refl) as H.
  rewrite H. by repeat split.
Defined.
